(** * Verifiable analytics agent: parser, policy engine, SQL compiler, pipeline

    A shallow embedding of the Python sources

      - [src/dsl/parser.py]      (natural language to DSL plan),
      - [src/policy/engine.py]   (ordered rule evaluation),
      - [src/dsl/compiler.py]    (DSL plan to SQL text),
      - [src/catalog/metrics_catalog.py] and [src/agent/pipeline.py]
        (metadata search, quality status, evidence pack, [run_agent]),

    followed by the properties of the specification that concern them
    (claims C1 to C10) and by further properties of the same code
    (X1 to X21).

    Conventions of the embedding.

      - Python [str] is Rocq [string]; the text is taken to be ASCII, so
        [lower], [upper], [split], [\d], [\w] and [\b] act on the ASCII
        classes and leave every other byte alone.
      - Python dictionaries with a fixed set of keys are records.  A key read
        with [d.get(k, default)] is an [option] field, a key read with
        [d[k]] is a plain field.  Dictionaries used as maps (the metric
        registry, the policy constraints, the response of [run_agent]) are
        [gmap string _].
      - A Python exception is a value of [exn]; a function that can raise
        returns [result].
      - Python numbers met in query results are exact rationals: [int] and
        [bool] cells keep their integer, a finite [float] cell the rational
        it denotes (NaN and the infinities are not represented), and
        [1.5 * iqr], [q1 - _], [q3 + _] are the exact operations (binary64
        rounding is not part of the model).
      - Code outside the repository is either a parameter ([sqlglot.parse],
        [hashlib.sha256], [json.dumps], the DuckDB connection, the loaded
        YAML catalog, [uuid.uuid4], [datetime.now], [date.today]) or, for the
        date arithmetic of [datetime.date], its proleptic Gregorian
        definition. *)

From Stdlib Require Import ZArith QArith Lqa String Ascii List Lia DecimalString.
From stdpp Require Import base option list gmap strings sorting.

Open Scope string_scope.
Open Scope Z_scope.

(** ** Exceptions and results *)

Inductive exn : Type :=
| ValueError (msg : string)
| KeyError (key : string)
| IndexError
| OverflowError
| LibraryError (msg : string).

Inductive result (A : Type) : Type :=
| Ok (a : A)
| Raise (e : exn).
Arguments Ok {A} a.
Arguments Raise {A} e.

(** Sequencing: the first exception raised aborts what follows.  The
    notation [x ← r; k] is stdpp's notation for [mbind]. *)
#[global] Instance result_bind : MBind result :=
  fun A B (k : A -> result B) (r : result A) =>
    match r with
    | Ok a => k a
    | Raise e => Raise e
    end.

#[global] Instance result_ret : MRet result := fun A a => Ok a.

Fixpoint mapM_result {A B : Type} (f : A -> result B) (l : list A) : result (list B) :=
  match l with
  | [] => Ok []
  | a :: l' => b ← f a; bs ← mapM_result f l'; Ok (b :: bs)
  end.

(** ** Python string operations (ASCII) *)

Module PyStr.

Definition is_upper (c : ascii) : bool :=
  let n := nat_of_ascii c in (65 <=? n)%nat && (n <=? 90)%nat.

Definition is_lower (c : ascii) : bool :=
  let n := nat_of_ascii c in (97 <=? n)%nat && (n <=? 122)%nat.

Definition is_digit (c : ascii) : bool :=
  let n := nat_of_ascii c in (48 <=? n)%nat && (n <=? 57)%nat.

(** [\w]: letters, digits and the underscore. *)
Definition is_word (c : ascii) : bool :=
  is_upper c || is_lower c || is_digit c || (nat_of_ascii c =? 95)%nat.

(** The characters [str.split()] treats as separators. *)
Definition is_space (c : ascii) : bool :=
  let n := nat_of_ascii c in
  ((9 <=? n)%nat && (n <=? 13)%nat) || ((28 <=? n)%nat && (n <=? 32)%nat).

Definition lower_char (c : ascii) : ascii :=
  if is_upper c then ascii_of_nat (nat_of_ascii c + 32) else c.

Definition upper_char (c : ascii) : ascii :=
  if is_lower c then ascii_of_nat (nat_of_ascii c - 32) else c.

Fixpoint map_chars (f : ascii -> ascii) (s : string) : string :=
  match s with
  | EmptyString => EmptyString
  | String c s' => String (f c) (map_chars f s')
  end.

(** [s.lower()] and [s.upper()]. *)
Definition lower (s : string) : string := map_chars lower_char s.
Definition upper (s : string) : string := map_chars upper_char s.

(** [needle in haystack]. *)
Fixpoint contains (needle haystack : string) : bool :=
  String.prefix needle haystack ||
  match haystack with
  | EmptyString => false
  | String _ rest => contains needle rest
  end.

(** [any(w in q for w in ws)]. *)
Definition any_in (ws : list string) (q : string) : bool :=
  existsb (fun w => contains w q) ws.

(** [sep.join(parts)]. *)
Definition join (sep : string) (parts : list string) : string :=
  String.concat sep parts.

(** [s.split()]: maximal runs of non-space characters. *)
Fixpoint split_aux (cur : string) (s : string) : list string :=
  match s with
  | EmptyString => if String.eqb cur EmptyString then [] else [cur]
  | String c s' =>
      if is_space c
      then (if String.eqb cur EmptyString then split_aux EmptyString s' else cur :: split_aux EmptyString s')
      else split_aux (cur +:+ String c EmptyString) s'
  end.

Definition split (s : string) : list string := split_aux EmptyString s.

(** [str(n)] for an [int]. *)
Definition of_Z (n : Z) : string := NilZero.string_of_int (Z.to_int n).

Definition of_nat (n : nat) : string := of_Z (Z.of_nat n).

(** Truth value of a string: non-empty. *)
Definition truthy (s : string) : bool := negb (String.eqb s EmptyString).

End PyStr.

(** ** Policy engine ([src/policy/engine.py]) *)

Module Policy.

Record field_request : Type := {
  fr_field : option string;
  fr_sensitivity : option string
}.

Record privacy : Type := { min_group_size : option Z }.

Record user_attributes : Type := { role : option string }.

Record request : Type := {
  req_user_attributes : option user_attributes;
  req_fields_requested : option (list field_request);
  req_privacy : option privacy
}.

Record rule : Type := {
  rule_id : string;
  rule_description : string;
  rule_match : request -> bool;
  rule_allowed_roles : option (list string);
  rule_action : string;
  rule_constraints : option (gmap string Z);
  rule_rationale : string
}.

Record decision_record : Type := {
  decision : string;
  constraints : gmap string Z;
  rationale : string
}.

(** [f.get("sensitivity", <empty>).upper() == "HIGH"] *)
Definition is_high (f : field_request) : bool :=
  String.eqb (PyStr.upper (default EmptyString (fr_sensitivity f))) "HIGH".

(** The [match] of rule [deny_narrative_fields]. *)
Definition match_narrative (req : request) : bool :=
  existsb is_high (default [] (req_fields_requested req)).

(** [req.get("privacy", {}).get("min_group_size", 10)] *)
Definition requested_min_group (req : request) : Z :=
  default 10 (p ← req_privacy req; min_group_size p).

(** The [match] of rule [min_aggregation]. *)
Definition match_min_aggregation (req : request) : bool :=
  requested_min_group req <? 10.

Definition deny_narrative_fields : rule := {|
  rule_id := "deny_narrative_fields";
  rule_description :=
    "Narrative / free-text fields are HIGH sensitivity and denied for most roles.";
  rule_match := match_narrative;
  rule_allowed_roles := Some ["compliance_officer"; "admin"];
  rule_action := "DENY";
  rule_constraints := None;
  rule_rationale :=
    "High-sensitivity narrative fields are restricted. Only compliance_officer or admin roles may access them."
|}.

Definition min_aggregation : rule := {|
  rule_id := "min_aggregation";
  rule_description := "Enforce minimum group size for privacy.";
  rule_match := match_min_aggregation;
  rule_allowed_roles := Some [];
  rule_action := "ALLOW_WITH_CONSTRAINTS";
  rule_constraints := Some {[ "min_group_size" := 10 ]};
  rule_rationale := "Minimum group size of 10 enforced for privacy."
|}.

Definition DEFAULT_POLICIES : list rule := [deny_narrative_fields; min_aggregation].

(** [request_json.get("user_attributes", {}).get("role", "analyst")] *)
Definition user_role (req : request) : string :=
  default "analyst" (u ← req_user_attributes req; role u).

(** [user_role in policy.get("allowed_roles", [])] *)
Definition exempt (r : rule) (who : string) : bool :=
  existsb (String.eqb who) (default [] (rule_allowed_roles r)).

Definition allow_all : decision_record := {|
  decision := "ALLOW";
  constraints := ∅;
  rationale := "Request complies with all policies."
|}.

(** The [for policy in policies] loop of [policy_eval]. *)
Fixpoint eval_rules (req : request) (who : string) (policies : list rule)
  : decision_record :=
  match policies with
  | [] => allow_all
  | p :: rest =>
      if rule_match p req then
        if exempt p who then eval_rules req who rest
        else if String.eqb (rule_action p) "DENY" then
          {| decision := "DENY"; constraints := ∅; rationale := rule_rationale p |}
        else if String.eqb (rule_action p) "ALLOW_WITH_CONSTRAINTS" then
          {| decision := "ALLOW_WITH_CONSTRAINTS";
             constraints := default ∅ (rule_constraints p);
             rationale := rule_rationale p |}
        else eval_rules req who rest
      else eval_rules req who rest
  end.

Definition policy_eval (req : request) (policies : option (list rule))
  : decision_record :=
  eval_rules req (user_role req) (default DEFAULT_POLICIES policies).

End Policy.

(** ** Dates ([datetime.date], proleptic Gregorian calendar) *)

Module PyDate.

Record date : Type := { year : Z; month : Z; day : Z }.

Definition MAXORDINAL : Z := 3652059.

Definition is_leap (y : Z) : bool :=
  (y mod 4 =? 0) && (negb (y mod 100 =? 0) || (y mod 400 =? 0)).

Definition days_before_year (y : Z) : Z :=
  let y' := y - 1 in y' * 365 + y' / 4 - y' / 100 + y' / 400.

Definition DAYS_IN_MONTH : list Z :=
  [31; 28; 31; 30; 31; 30; 31; 31; 30; 31; 30; 31].

Definition DAYS_BEFORE_MONTH : list Z :=
  [0; 31; 59; 90; 120; 151; 181; 212; 243; 273; 304; 334].

Definition table_at (t : list Z) (m : Z) : Z := nth (Z.to_nat (m - 1)) t 0.

Definition days_before_month (y m : Z) : Z :=
  table_at DAYS_BEFORE_MONTH m + (if (2 <? m) && is_leap y then 1 else 0).

(** [d.toordinal()] *)
Definition toordinal (d : date) : Z :=
  days_before_year (year d) + days_before_month (year d) (month d) + day d.

(** [date.fromordinal(n)] *)
Definition fromordinal (n : Z) : date :=
  let n := n - 1 in
  let n400 := n / 146097 in let n := n mod 146097 in
  let n100 := n / 36524 in let n := n mod 36524 in
  let n4 := n / 1461 in let n := n mod 1461 in
  let n1 := n / 365 in let n := n mod 365 in
  let y := n400 * 400 + 1 + n100 * 100 + n4 * 4 + n1 in
  if (n1 =? 4) || (n100 =? 4) then {| year := y - 1; month := 12; day := 31 |}
  else
    let leapyear := (n1 =? 3) && (negb (n4 =? 24) || (n100 =? 3)) in
    let m := Z.shiftr (n + 50) 5 in
    let preceding := table_at DAYS_BEFORE_MONTH m + (if (2 <? m) && leapyear then 1 else 0) in
    if n <? preceding then
      let m' := m - 1 in
      let preceding' :=
        preceding - (table_at DAYS_IN_MONTH m' + (if (m' =? 2) && leapyear then 1 else 0)) in
      {| year := y; month := m'; day := n - preceding' + 1 |}
    else {| year := y; month := m; day := n - preceding + 1 |}.

(** [d - timedelta(days=n)]: the [timedelta] constructor refuses more
    than 999999999 days, the subtraction a result outside years 1..9999. *)
Definition minus_days (d : date) (n : Z) : result date :=
  if 999999999 <? Z.abs n then Raise OverflowError
  else
    let o := toordinal d - n in
    if (0 <? o) && (o <=? MAXORDINAL) then Ok (fromordinal o)
    else Raise OverflowError.

Definition pad_left (width : nat) (s : string) : string :=
  Nat.iter (width - String.length s) (String "0"%char) s.

(** ["%0wd" % n] for [0 <= n] *)
Definition zero_padded (width : nat) (n : Z) : string :=
  pad_left width (PyStr.of_Z n).

(** [d.isoformat()] *)
Definition isoformat (d : date) : string :=
  zero_padded 4 (year d) +:+ "-" +:+ zero_padded 2 (month d) +:+ "-" +:+ zero_padded 2 (day d).

End PyDate.

(** ** The DSL plan *)

Module Dsl.

Record time_range : Type := {
  tr_start : option string;
  tr_end : option string;
  tr_grain : option string
}.

Record filter : Type := {
  f_field : string;
  f_op : string;
  f_value : string
}.

Record sort_key : Type := {
  s_field : string;
  s_direction : option string
}.

Record export : Type := { format : string }.

(** The inner dictionary, under key ["dsl"]. *)
Record dsl : Type := {
  intent : option string;
  metric_ids : option (list string);
  dimensions : option (list string);
  filters : option (list filter);
  time_range_of : option time_range;
  sort : option (list sort_key);
  limit : option Z;
  privacy : option Policy.privacy;
  export_of : option export
}.

(** The dictionary returned by [parse_nl_to_dsl]. *)
Record plan : Type := {
  plan_dsl : dsl;
  fields_requested : option (list Policy.field_request)
}.

End Dsl.

(** ** Intent parser ([src/dsl/parser.py]) *)

Module Parser.
Import Dsl.

Definition _detect_intent (query : string) : string :=
  let q := PyStr.lower query in
  if PyStr.any_in ["chart"; "trend"; "plot"; "graph"; "visuali"] q then "chart"
  else if PyStr.any_in ["table"; "list"; "export"; "break down"; "breakdown"] q then "table"
  else "analysis".

(** [if c: metrics.append(m)] *)
Definition append_if (c : bool) (m : string) (acc : list string) : list string :=
  if c then acc ++ [m] else acc.

Definition _detect_metrics (query : string) : list string :=
  let q := PyStr.lower query in
  let metrics := [] in
  let metrics := append_if (PyStr.contains "net income" q) "net_income" metrics in
  let metrics := append_if (PyStr.contains "complaint" q) "complaint_volume" metrics in
  let metrics := append_if (PyStr.contains "asset" q) "total_assets" metrics in
  let metrics := append_if (PyStr.contains "deposit" q) "total_deposits" metrics in
  let metrics :=
    append_if (PyStr.contains "npa" q || PyStr.contains "non-performing" q)
              "npa_ratio" metrics in
  let metrics :=
    append_if (PyStr.contains "tier" q || PyStr.contains "capital" q)
              "tier1_ratio" metrics in
  let metrics := append_if (PyStr.contains "narrative" q) "complaint_narrative" metrics in
  match metrics with
  | [] => ["complaint_volume"]
  | _ => metrics
  end.

Definition _detect_dimensions (query : string) : list string :=
  let q := PyStr.lower query in
  let dims := [] in
  let dims := append_if (PyStr.contains "state" q) "state" dims in
  let dims := append_if (PyStr.contains "product" q) "product" dims in
  let dims :=
    append_if (PyStr.contains "company" q || PyStr.contains "bank" q) "bank_name" dims in
  let dims :=
    append_if (PyStr.contains "quarter" q || PyStr.contains "quarterly" q) "quarter" dims in
  match dims with
  | [] => ["quarter"]
  | _ => dims
  end.

(** The longest prefix of digits, and what follows it. *)
Fixpoint take_digits (s : string) : string * string :=
  match s with
  | String c s' =>
      if PyStr.is_digit c
      then let (ds, rest) := take_digits s' in (String c ds, rest)
      else (EmptyString, s)
  | EmptyString => (EmptyString, EmptyString)
  end.

Fixpoint drop (n : nat) (s : string) : string :=
  match n, s with
  | S n', String _ s' => drop n' s'
  | _, _ => s
  end.

(** [re.search(r"since (\d{4})", q)]: group 1 of the leftmost match. *)
Fixpoint search_since (q : string) : option string :=
  let here :=
    if String.prefix "since " q then
      let ds := String.substring 0 4 (drop 6 q) in
      if (String.length ds =? 4)%nat && forallb PyStr.is_digit (list_ascii_of_string ds)
      then Some ds else None
    else None in
  match here, q with
  | Some ds, _ => Some ds
  | None, String _ q' => search_since q'
  | None, EmptyString => None
  end.

(** [re.search(r"last (\d+) months?", q)]: group 1 of the leftmost match.
    The digits are taken greedily; giving one back cannot help, since a
    digit is not the space the pattern asks for next. *)
Fixpoint search_last_months (q : string) : option string :=
  let here :=
    if String.prefix "last " q then
      let (ds, rest) := take_digits (drop 5 q) in
      if PyStr.truthy ds && String.prefix " month" rest then Some ds else None
    else None in
  match here, q with
  | Some ds, _ => Some ds
  | None, String _ q' => search_last_months q'
  | None, EmptyString => None
  end.

(** [int(ds)] for a string of decimal digits.  (CPython 3.11 and later
    refuse a numeral of more than 4300 digits with a [ValueError]; here such
    a numeral yields its value, and [PyDate.minus_days] then raises.) *)
Definition int_of_digits (ds : string) : Z :=
  fold_left (fun acc c => 10 * acc + (Z.of_nat (nat_of_ascii c) - 48))
            (list_ascii_of_string ds) 0.

Definition _detect_time_range (today : PyDate.date) (query : string)
  : result time_range :=
  let q := PyStr.lower query in
  match search_since q with
  | Some y =>
      Ok {| tr_start := Some (y +:+ "-01-01");
            tr_end := Some (PyDate.isoformat today);
            tr_grain := Some "quarter" |}
  | None =>
      match search_last_months q with
      | Some ds =>
          let months := int_of_digits ds in
          start ← PyDate.minus_days today (months * 30);
          Ok {| tr_start := Some (PyDate.isoformat start);
                tr_end := Some (PyDate.isoformat today);
                tr_grain := Some "month" |}
      | None =>
          Ok {| tr_start := Some "2020-01-01";
                tr_end := Some (PyDate.isoformat today);
                tr_grain := Some "quarter" |}
      end
  end.

(** [re.search(r"\b([A-Z]{2})\b", query)]: group 1 of the leftmost match;
    [prev_word] tells whether the character before the position is a
    word character. *)
Fixpoint search_state (prev_word : bool) (query : string) : option string :=
  match query with
  | String a rest =>
      let here :=
        match rest with
        | String b after =>
            negb prev_word && PyStr.is_upper a && PyStr.is_upper b &&
            match after with
            | String c _ => negb (PyStr.is_word c)
            | EmptyString => true
            end
        | EmptyString => false
        end in
      if here then Some (String.substring 0 2 query)
      else search_state (PyStr.is_word a) rest
  | EmptyString => None
  end.

Definition STATES : list string :=
  ["CA"; "TX"; "NY"; "FL"; "IL"; "OH"; "PA"; "GA"; "NC"; "MI"].

Definition _detect_filters (query : string) : list filter :=
  match search_state false query with
  | Some st =>
      if existsb (String.eqb st) STATES
      then [ {| f_field := "state"; f_op := "="; f_value := st |} ]
      else []
  | None => []
  end.

Definition _detect_export (query : string) : export :=
  let q := PyStr.lower query in
  if PyStr.contains "export" q || PyStr.contains "csv" q
  then {| format := "csv" |} else {| format := "none" |}.

Definition _needs_narrative (query : string) : list Policy.field_request :=
  let q := PyStr.lower query in
  if PyStr.contains "narrative" q
  then [ {| Policy.fr_field := Some "consumer_complaint_narrative";
            Policy.fr_sensitivity := Some "HIGH" |} ]
  else [].

(** [_detect_dimensions(query)[0]]; the list is never empty. *)
Definition first_dimension (query : string) : string :=
  hd "quarter" (_detect_dimensions query).

Definition parse_nl_to_dsl (today : PyDate.date) (query : string) : result plan :=
  tr ← _detect_time_range today query;
  Ok {| plan_dsl := {|
          intent := Some (_detect_intent query);
          metric_ids := Some (_detect_metrics query);
          dimensions := Some (_detect_dimensions query);
          filters := Some (_detect_filters query);
          time_range_of := Some tr;
          sort := Some [ {| s_field := first_dimension query;
                            s_direction := Some "asc" |} ];
          limit := Some 200;
          privacy := Some {| Policy.min_group_size := Some 10 |};
          export_of := Some (_detect_export query)
        |};
        fields_requested := Some (_needs_narrative query) |}.

End Parser.

(** ** SQL compiler ([src/dsl/compiler.py]) *)

Module Compiler.
Import Dsl.

Record metric_info : Type := {
  table : string;
  expression : string;
  alias : string
}.

Definition METRIC_SQL : gmap string metric_info :=
  list_to_map [
    ("net_income",
      {| table := "dp_call_reports"; expression := "SUM(net_income)";
         alias := "total_net_income" |});
    ("complaint_volume",
      {| table := "dp_complaints"; expression := "COUNT(*)";
         alias := "complaint_count" |});
    ("total_assets",
      {| table := "dp_call_reports"; expression := "SUM(assets)";
         alias := "total_assets" |});
    ("total_deposits",
      {| table := "dp_call_reports"; expression := "SUM(deposits)";
         alias := "total_deposits" |});
    ("npa_ratio",
      {| table := "dp_call_reports"; expression := "AVG(npa)";
         alias := "avg_npa" |});
    ("tier1_ratio",
      {| table := "dp_call_reports"; expression := "AVG(tier1_ratio)";
         alias := "avg_tier1_ratio" |});
    ("complaint_narrative",
      {| table := "dp_complaints"; expression := "consumer_complaint_narrative";
         alias := "narrative" |})
  ].

Definition DIMENSION_COL : gmap string string :=
  list_to_map [
    ("quarter", "quarter"); ("state", "state"); ("product", "product");
    ("bank_name", "bank_name"); ("date_received", "date_received");
    ("company", "company"); ("channel", "channel")
  ].

Definition DIMENSION_TABLE_OVERRIDE : gmap string (gmap string string) :=
  {[ "dp_complaints" :=
       {[ "quarter" :=
            "CONCAT(EXTRACT(YEAR FROM date_received), '-Q', EXTRACT(QUARTER FROM date_received))" ]} ]}.

(** What [sqlglot.parse(sql, read="duckdb")] does with a text: it returns a
    list of statements, raises [ParseError], or raises something else. *)
Inductive parse_outcome : Type :=
| Parsed (statements : nat)
| ParseError (msg : string)
| ParseCrash (e : exn).

(** The argument of [compile_dsl_to_sql]: the parser's dictionary, or the
    inner dictionary alone ([plan = dsl.get("dsl", dsl)]). *)
Inductive source : Type :=
| Wrapped (p : plan)
| Bare (d : dsl).

Definition inner (src : source) : dsl :=
  match src with
  | Wrapped p => plan_dsl p
  | Bare d => d
  end.

(** [(constraints or {}).get("min_group_size",
       plan.get("privacy", {}).get("min_group_size", 10))] *)
Definition effective_min_group (plan : dsl) (constraints : option (gmap string Z)) : Z :=
  default (default 10 (p ← privacy plan; Policy.min_group_size p))
          (default ∅ constraints !! "min_group_size").

Definition overrides_of (tbl : string) : gmap string string :=
  default ∅ (DIMENSION_TABLE_OVERRIDE !! tbl).

Definition _dim_expr (tbl : string) (d : string) : string :=
  match overrides_of tbl !! d with
  | Some e => e
  | None => default d (DIMENSION_COL !! d)
  end.

Definition _dim_alias (tbl : string) (d : string) : string :=
  match overrides_of tbl !! d with
  | Some _ => d
  | None => default d (DIMENSION_COL !! d)
  end.

Definition select_dim (tbl : string) (d : string) : string :=
  match overrides_of tbl !! d with
  | Some e => e +:+ " AS " +:+ d
  | None => _dim_expr tbl d
  end.

Definition select_metric (m : string) : list string :=
  match METRIC_SQL !! m with
  | Some info => [expression info +:+ " AS " +:+ alias info]
  | None => []
  end.

Definition select_parts (tbl : string) (dims metrics : list string) : list string :=
  map (select_dim tbl) dims ++ concat (map select_metric metrics).

Definition date_col (tbl : string) : string :=
  if String.eqb tbl "dp_call_reports" then "quarter" else "date_received".

(** [if time_range.get(key): where_parts.append(...)] *)
Definition bound_part (tbl : string) (cmp : string) (bound : option string) : list string :=
  match bound with
  | Some v => if PyStr.truthy v then [date_col tbl +:+ " " +:+ cmp +:+ " '" +:+ v +:+ "'"] else []
  | None => []
  end.

Definition filter_part (f : filter) : string :=
  f_field f +:+ " " +:+ f_op f +:+ " '" +:+ f_value f +:+ "'".

Definition where_parts (tbl : string) (tr : option time_range) (fs : list filter)
  : list string :=
  bound_part tbl ">=" (t ← tr; tr_start t) ++
  bound_part tbl "<=" (t ← tr; tr_end t) ++
  map filter_part fs.

Definition group_by_text (tbl : string) (dims : list string) : string :=
  PyStr.join ", " (map (_dim_expr tbl) dims).

(** [needs_having = group_by and min_group and table == "dp_complaints"] *)
Definition needs_having (tbl : string) (dims : list string) (min_group : Z) : bool :=
  PyStr.truthy (group_by_text tbl dims) && negb (min_group =? 0) &&
  String.eqb tbl "dp_complaints".

Definition having_text (tbl : string) (dims : list string) (min_group : Z) : string :=
  if needs_having tbl dims min_group
  then "HAVING COUNT(*) >= " +:+ PyStr.of_Z min_group
  else EmptyString.

Definition order_part (tbl : string) (s : sort_key) : string :=
  _dim_alias tbl (s_field s) +:+ " " +:+ PyStr.upper (default "asc" (s_direction s)).

Definition order_by_text (tbl : string) (keys : list sort_key) : string :=
  PyStr.join ", " (map (order_part tbl) keys).

(** [if text: sql += prefix + text] *)
Definition clause (prefix text : string) : string :=
  if PyStr.truthy text then prefix +:+ text else EmptyString.

Definition where_clause (parts : list string) : string :=
  match parts with
  | [] => EmptyString
  | _ => " WHERE " +:+ PyStr.join " AND " parts
  end.

Definition limit_clause (lim : Z) : string :=
  if lim =? 0 then EmptyString else " LIMIT " +:+ PyStr.of_Z lim.

(** The text of the statement, as assembled before validation. *)
Definition assemble (plan : dsl) (constraints : option (gmap string Z)) (tbl : string)
  : string :=
  let metrics := default [] (metric_ids plan) in
  let dims := default [] (dimensions plan) in
  let min_group := effective_min_group plan constraints in
  "SELECT " +:+ PyStr.join ", " (select_parts tbl dims metrics) +:+ " FROM " +:+ tbl
    +:+ where_clause (where_parts tbl (time_range_of plan) (default [] (filters plan)))
    +:+ clause " GROUP BY " (group_by_text tbl dims)
    +:+ clause " " (having_text tbl dims min_group)
    +:+ clause " ORDER BY " (order_by_text tbl (default [] (sort plan)))
    +:+ limit_clause (default 200 (limit plan)).

Section WithSqlglot.

Variable sqlglot_parse : string -> parse_outcome.

(** The [try: ... except sqlglot.errors.ParseError] block. *)
Definition validate (sql : string) : result string :=
  match sqlglot_parse sql with
  | Parsed O => Raise (ValueError "sqlglot returned empty parse")
  | Parsed (S _) => Ok sql
  | ParseError msg => Raise (ValueError ("Generated SQL failed validation: " +:+ msg))
  | ParseCrash e => Raise e
  end.

Definition compile_dsl_to_sql (src : source) (constraints : option (gmap string Z))
  : result string :=
  let plan := inner src in
  match default [] (metric_ids plan) with
  | [] => Raise (ValueError "No metrics specified in DSL plan")
  | first_metric :: _ =>
      match METRIC_SQL !! first_metric with
      | None => Raise (ValueError ("Unknown metric: " +:+ first_metric))
      | Some meta => validate (assemble plan constraints (table meta))
      end
  end.

End WithSqlglot.

End Compiler.

(** ** Metrics catalog ([src/catalog/metrics_catalog.py]) *)

Module Catalog.

Record data_product : Type := {
  dp_name : option string;
  dp_description : option string;
  dp_dimensions : option (list string);
  dp_metrics : option (list string);
  dp_version : option string;
  dp_freshness : option string
}.

Record metric : Type := {
  m_id : option string;
  m_name : option string;
  m_description : option string;
  m_data_product : option string
}.

(** The dictionary [_load_catalog] reads from the YAML file. *)
Record catalog : Type := {
  data_products : option (list data_product);
  metrics : option (list metric)
}.

(** [metadata_search] returns data products and metrics in one list. *)
Inductive entry : Type :=
| Product (dp : data_product)
| Metric (m : metric).

Definition opt_str (o : option string) : string := default EmptyString o.

Definition product_text (dp : data_product) : string :=
  PyStr.lower (PyStr.join " " [
    opt_str (dp_name dp);
    opt_str (dp_description dp);
    PyStr.join " " (default [] (dp_dimensions dp));
    PyStr.join " " (default [] (dp_metrics dp)) ]).

Definition metric_text (m : metric) : string :=
  PyStr.lower (PyStr.join " " [
    opt_str (m_id m); opt_str (m_description m); opt_str (m_data_product m) ]).

(** [any(t in text for t in tokens)] *)
Definition hits (tokens : list string) (text : string) : bool :=
  existsb (fun t => PyStr.contains t text) tokens.

Definition metadata_search (query : string) (cat : catalog) : list entry :=
  let tokens := PyStr.split (PyStr.lower query) in
  map Product
      (List.filter (fun dp => hits tokens (product_text dp))
                   (default [] (data_products cat)))
  ++ map Metric
      (List.filter (fun m => hits tokens (metric_text m))
                   (default [] (metrics cat))).

(** [m["name"]] when ["name" in m]. *)
Definition entry_name (e : entry) : option string :=
  match e with
  | Product dp => dp_name dp
  | Metric m => m_name m
  end.

End Catalog.

(** ** Query results *)

Module Rows.

(** A scalar of a result row: [None], a [bool], an [int], a finite [float]
    (the rational it denotes), a [str], or a value of another Python type
    (a date, a [Decimal], ...), kept as its text. *)
Inductive cell : Type :=
| CNull
| CBool (b : bool)
| CInt (n : Z)
| CFloat (x : Q)
| CStr (s : string)
| COther (repr : string).

(** [isinstance(v, (int, float))], with the number [v] denotes;
    [bool] is a subclass of [int]. *)
Definition numeric (c : cell) : option Q :=
  match c with
  | CBool b => Some (inject_Z (if b then 1 else 0))
  | CInt n => Some (inject_Z n)
  | CFloat x => Some x
  | CNull | CStr _ | COther _ => None
  end.

Definition is_numeric (c : cell) : bool :=
  match numeric c with Some _ => true | None => false end.

(** What [con.execute(sql)] followed by [description] and [fetchall()]
    gives: column names and rows, or an exception with its text. *)
Inductive exec_outcome : Type :=
| Fetched (columns : list string) (rows : list (list cell))
| ExecError (msg : string).

(** [row[i]] *)
Definition at_index (row : list cell) (i : nat) : result cell :=
  match row !! i with
  | Some c => Ok c
  | None => Raise IndexError
  end.

(** [columns.index(c)] *)
Fixpoint index (columns : list string) (c : string) : result nat :=
  match columns with
  | [] => Raise (ValueError "is not in list")
  | c' :: rest => if String.eqb c' c then Ok O else i ← index rest c; Ok (S i)
  end.

End Rows.

#[global] Instance Qle_decision (x y : Q) : Decision (Qle x y) :=
  match Qlt_le_dec y x with
  | left H => right (Qlt_not_le _ _ H)
  | right H => left H
  end.

(** ** Outlier scan of [run_agent] ([src/agent/pipeline.py], step 7b) *)

Module Outliers.
Import Rows.

(** [any(isinstance(row[i], (int, float)) for row in rows)] *)
Fixpoint any_numeric_at (i : nat) (rows : list (list cell)) : result bool :=
  match rows with
  | [] => Ok false
  | row :: rest =>
      c ← at_index row i;
      if is_numeric c then Ok true else any_numeric_at i rest
  end.

(** The list comprehension computing [numeric_cols]; [all_columns] is the
    full column list that [columns.index] searches, [sample] is [rows[:1]]. *)
Fixpoint numeric_columns (all_columns : list string) (sample : list (list cell))
         (columns : list string) : result (list string) :=
  match columns with
  | [] => Ok []
  | c :: rest =>
      i ← index all_columns c;
      b ← any_numeric_at i sample;
      cs ← numeric_columns all_columns sample rest;
      Ok (if (b : bool) then c :: cs else cs)
  end.

(** [row[col_idx] for row in rows if isinstance(row[col_idx], (int, float))] *)
Fixpoint column_values (col_idx : nat) (rows : list (list cell)) : result (list Q) :=
  match rows with
  | [] => Ok []
  | row :: rest =>
      c ← at_index row col_idx;
      vs ← column_values col_idx rest;
      Ok (match numeric c with Some v => v :: vs | None => vs end)
  end.

(** [values[i]] *)
Definition value_at (values : list Q) (i : nat) : result Q :=
  match values !! i with
  | Some v => Ok v
  | None => Raise IndexError
  end.

Definition outside (lo hi v : Q) : bool :=
  negb (Qle_bool lo v) || negb (Qle_bool v hi).

(** The [for i, row in enumerate(rows)] loop, [i] being the index of the
    first row of [rows]. *)
Fixpoint flag_rows (col_idx : nat) (lo hi : Q) (i : nat) (rows : list (list cell))
  : result (list nat) :=
  match rows with
  | [] => Ok []
  | row :: rest =>
      c ← at_index row col_idx;
      flagged ← flag_rows col_idx lo hi (S i) rest;
      Ok (match numeric c with
          | Some v => if outside lo hi v then i :: flagged else flagged
          | None => flagged
          end)
  end.

Definition quartile_low (values : list Q) : nat := (length values / 4)%nat.
Definition quartile_high (values : list Q) : nat := (3 * length values / 4)%nat.

(** The column [numeric_cols[-1]], if [numeric_cols] is not empty. *)
Definition metric_column (columns : list string) (rows : list (list cell))
  : result (option string) :=
  numeric_cols ← numeric_columns columns (take 1 rows) columns;
  Ok (last numeric_cols).

(** The scan proper, on the column at [col_idx]. *)
Definition scan (col_idx : nat) (rows : list (list cell)) : result (list nat) :=
  unsorted ← column_values col_idx rows;
  let values := merge_sort Qle unsorted in
  q1 ← value_at values (quartile_low values);
  q3 ← value_at values (quartile_high values);
  let iqr := (q3 - q1)%Q in
  let lo := (q1 - 1.5 * iqr)%Q in
  let hi := (q3 + 1.5 * iqr)%Q in
  flag_rows col_idx lo hi O rows.

(** [if numeric_cols and len(rows) >= 4: ...], the list [outlier_indices]. *)
Definition detect_outliers (columns : list string) (rows : list (list cell))
  : result (list nat) :=
  metric ← metric_column columns rows;
  match metric with
  | Some metric_col =>
      if (4 <=? length rows)%nat then
        col_idx ← index columns metric_col;
        scan col_idx rows
      else Ok []
  | None => Ok []
  end.

End Outliers.

(** ** Agent pipeline ([src/agent/pipeline.py]) *)

Module Pipeline.
Import Dsl Rows.

Record quality_record : Type := {
  dataset : string;
  version : string;
  freshness : string;
  tests_passed : bool
}.

Record evidence_pack : Type := {
  evidence_pack_id : string;
  timestamp : string;
  ev_dsl_plan : dsl;
  ev_policy_decision : Policy.decision_record;
  sql_hash : string;
  ev_sql : string;
  datasets_quality : list quality_record;
  result_row_count : nat
}.

(** The values stored in the dictionary [run_agent] returns. *)
Inductive value : Type :=
| VStr (s : string)
| VPolicy (p : Policy.decision_record)
| VDsl (d : dsl)
| VColumns (cs : list string)
| VData (records : list (gmap string cell))
| VIndices (idx : list nat)
| VEvidence (e : evidence_pack).

(** What one call reads from the outside world: [date.today()],
    [uuid.uuid4()] as text and [datetime.now(timezone.utc).isoformat()]. *)
Record environment : Type := {
  today : PyDate.date;
  uuid4 : string;
  utcnow : string
}.

(** A call of [run_agent]: the dictionary returned (or the exception that
    escaped) and the statements passed to [con.execute], in order. *)
Record run : Type := {
  response : result (gmap string value);
  executed : list string
}.

(** The body of the loop of [quality_status], one data product. *)
Definition quality_of (dp : Catalog.data_product) (name : string) : quality_record := {|
  dataset := name;
  version := default "unknown" (Catalog.dp_version dp);
  freshness := default "unknown" (Catalog.dp_freshness dp);
  tests_passed := true
|}.

Fixpoint quality_loop (dataset_ids : list string) (dps : list Catalog.data_product)
  : result (list quality_record) :=
  match dps with
  | [] => Ok []
  | dp :: rest =>
      match Catalog.dp_name dp with
      | None => Raise (KeyError "name")
      | Some name =>
          rs ← quality_loop dataset_ids rest;
          Ok (if existsb (String.eqb name) dataset_ids
              then quality_of dp name :: rs else rs)
      end
  end.

Definition quality_status (dataset_ids : list string) (cat : Catalog.catalog)
  : result (list quality_record) :=
  quality_loop dataset_ids (default [] (Catalog.data_products cat)).

(** [list({m["name"] for m in meta if "name" in m})]; the order of a set
    is unspecified, and only membership is used afterwards. *)
Definition datasets_of (meta : list Catalog.entry) : list string :=
  remove_dups (omap Catalog.entry_name meta).

(** [dict(zip(columns, row))]: a later duplicate of a column name wins. *)
Definition record_of (columns : list string) (row : list cell) : gmap string cell :=
  list_to_map (reverse (zip columns row)).

Definition ALTERNATIVE : string :=
  "Try a query without narrative fields, or request access elevation.".

Section WithLibraries.

Variable sqlglot_parse : string -> Compiler.parse_outcome.
(** [hashlib.sha256(s.encode()).hexdigest()] *)
Variable sha256_hexdigest : string -> string.
(** [json.dumps] on a constraints dictionary *)
Variable json_dumps : gmap string Z -> string.

Definition _sql_hash (sql : string) : string :=
  String.substring 0 16 (sha256_hexdigest sql).

Definition make_evidence_pack (env : environment) (d : dsl)
           (policy_result : Policy.decision_record) (sql : string)
           (quality : list quality_record) (row_count : nat) : evidence_pack := {|
  evidence_pack_id := uuid4 env;
  timestamp := utcnow env;
  ev_dsl_plan := d;
  ev_policy_decision := policy_result;
  sql_hash := _sql_hash sql;
  ev_sql := sql;
  datasets_quality := quality;
  result_row_count := row_count
|}.

Definition _build_explanation (d : dsl) (row_count : nat) (outliers : list nat)
           (policy : Policy.decision_record) : string :=
  let intent := default "analysis" (intent d) in
  let metrics := PyStr.join ", " (default [] (metric_ids d)) in
  let dims := PyStr.join ", " (default [] (dimensions d)) in
  let tr := time_range_of d in
  let parts := [
    "Produced a **" +:+ intent +:+ "** for metric(s) [" +:+ metrics
      +:+ "] grouped by [" +:+ dims +:+ "].";
    "Time range: " +:+ default "?" (t ← tr; tr_start t)
      +:+ " to " +:+ default "?" (t ← tr; tr_end t)
      +:+ " (" +:+ default "quarter" (t ← tr; tr_grain t) +:+ ").";
    "Returned **" +:+ PyStr.of_nat row_count +:+ "** rows." ] in
  let parts :=
    match outliers with
    | [] => parts
    | _ => (parts ++ ["**" +:+ PyStr.of_nat (length outliers)
                           +:+ " outlier(s)** detected via IQR method."])%list
    end in
  let parts :=
    if String.eqb (Policy.decision policy) "ALLOW_WITH_CONSTRAINTS"
    then (parts ++ ["Policy applied constraints: "
                      +:+ json_dumps (Policy.constraints policy) +:+ "."])%list
    else parts in
  PyStr.join " " parts.

(** Step 3 of [run_agent]: the request handed to [policy_eval]. *)
Definition policy_request (p : plan) (user_role : string) : Policy.request := {|
  Policy.req_user_attributes := Some {| Policy.role := Some user_role |};
  Policy.req_fields_requested := Some (default [] (fields_requested p));
  Policy.req_privacy :=
    Some (default {| Policy.min_group_size := None |} (privacy (plan_dsl p)))
|}.

Definition denied_response (p : plan) (policy_result : Policy.decision_record)
  : gmap string value :=
  list_to_map [
    ("status", VStr "denied");
    ("policy", VPolicy policy_result);
    ("explanation", VStr (Policy.rationale policy_result));
    ("alternative", VStr ALTERNATIVE);
    ("dsl", VDsl (plan_dsl p)) ].

Definition error_response (p : plan) (msg sql : string) : gmap string value :=
  list_to_map [
    ("status", VStr "error");
    ("error", VStr msg);
    ("sql", VStr sql);
    ("dsl", VDsl (plan_dsl p)) ].

(** Steps 6 and 7 and the construction of the result, after a
    successful execution. *)
Definition postprocess (env : environment) (cat : Catalog.catalog) (p : plan)
           (policy_result : Policy.decision_record) (sql : string)
           (datasets_used : list string)
           (columns : list string) (rows : list (list cell))
  : result (gmap string value) :=
  quality ← quality_status datasets_used cat;
  let evidence :=
    make_evidence_pack env (plan_dsl p) policy_result sql quality (length rows) in
  let table_data := map (record_of columns) rows in
  outlier_indices ← Outliers.detect_outliers columns rows;
  Ok (list_to_map [
    ("status", VStr "success");
    ("dsl", VDsl (plan_dsl p));
    ("policy", VPolicy policy_result);
    ("sql", VStr sql);
    ("columns", VColumns columns);
    ("data", VData table_data);
    ("outlier_indices", VIndices outlier_indices);
    ("evidence_pack", VEvidence evidence);
    ("explanation",
      VStr (_build_explanation (plan_dsl p) (length rows) outlier_indices
                               policy_result)) ]).

Definition run_agent (env : environment) (query : string)
           (con : string -> exec_outcome) (user_role : string)
           (cat : Catalog.catalog) : run :=
  match Parser.parse_nl_to_dsl (today env) query with
  | Raise e => {| response := Raise e; executed := [] |}
  | Ok p =>
      let meta := Catalog.metadata_search query cat in
      let datasets_used := datasets_of meta in
      let policy_result := Policy.policy_eval (policy_request p user_role) None in
      if String.eqb (Policy.decision policy_result) "DENY" then
        {| response := Ok (denied_response p policy_result); executed := [] |}
      else
        let constraints := Policy.constraints policy_result in
        match Compiler.compile_dsl_to_sql sqlglot_parse (Compiler.Wrapped p)
                                          (Some constraints) with
        | Raise e => {| response := Raise e; executed := [] |}
        | Ok sql =>
            match con sql with
            | ExecError msg =>
                {| response := Ok (error_response p msg sql); executed := [sql] |}
            | Fetched columns rows =>
                {| response :=
                     postprocess env cat p policy_result sql datasets_used
                                 columns rows;
                   executed := [sql] |}
            end
        end
  end.

End WithLibraries.

End Pipeline.

(** ** Notions used to state the properties *)

(** [w] occurs in [q] as a substring. *)
Definition occurs (w q : string) : Prop := exists pre post, q = pre +:+ w +:+ post.

(** The data product [dp] has a name, and the name is one of [ids]. *)
Definition named_in (ids : list string) (dp : Catalog.data_product) : bool :=
  match Catalog.dp_name dp with
  | Some n => bool_decide (n ∈ ids)
  | None => false
  end.

(** The quality record [r] describes the data product [dp]. *)
Definition describes (r : Pipeline.quality_record) (dp : Catalog.data_product) : Prop :=
  Catalog.dp_name dp = Some (Pipeline.dataset r)
  /\ Pipeline.version r = default "unknown" (Catalog.dp_version dp)
  /\ Pipeline.freshness r = default "unknown" (Catalog.dp_freshness dp).

(** Every row has one cell per column, as the rows of a DB-API cursor do. *)
Definition rectangular (columns : list string) (rows : list (list Rows.cell)) : Prop :=
  Forall (fun row => length row = length columns) rows.

(** The cell of [row] under the column named [c] is a number. *)
Definition numeric_under (columns : list string) (row : list Rows.cell) (c : string)
  : bool :=
  match Rows.index columns c with
  | Ok i =>
      match row !! i with
      | Some x => Rows.is_numeric x
      | None => false
      end
  | Raise _ => false
  end.

(** In the words of the specification: the last column that contains a
    numeric value in at least one of the rows observed. *)
Definition last_numeric_column (columns : list string) (observed : list (list Rows.cell))
  : option string :=
  last (List.filter
          (fun c => existsb (fun row => numeric_under columns row c) observed)
          columns).


(** Rule [r] does not decide request [req]: it does not match, or the
    caller's role is exempt, or its action is neither of the two the engine
    knows. *)
Definition passed_over (req : Policy.request) (r : Policy.rule) : Prop :=
  Policy.rule_match r req = false
  \/ Policy.exempt r (Policy.user_role req) = true
  \/ (Policy.rule_action r <> "DENY"
      /\ Policy.rule_action r <> "ALLOW_WITH_CONSTRAINTS").

(** The plan [p] with its list of filters emptied. *)
Definition without_filters (p : Dsl.plan) : Dsl.plan :=
  let d := Dsl.plan_dsl p in
  {| Dsl.plan_dsl :=
       {| Dsl.intent := Dsl.intent d;
          Dsl.metric_ids := Dsl.metric_ids d;
          Dsl.dimensions := Dsl.dimensions d;
          Dsl.filters := Some [];
          Dsl.time_range_of := Dsl.time_range_of d;
          Dsl.sort := Dsl.sort d;
          Dsl.limit := Dsl.limit d;
          Dsl.privacy := Dsl.privacy d;
          Dsl.export_of := Dsl.export_of d |};
     Dsl.fields_requested := Dsl.fields_requested p |}.

(** The metrics and the dimensions the parser knows, in the order in which
    it looks for them. *)
Definition PARSER_METRICS : list string :=
  ["net_income"; "complaint_volume"; "total_assets"; "total_deposits";
   "npa_ratio"; "tier1_ratio"; "complaint_narrative"].

Definition PARSER_DIMENSIONS : list string :=
  ["state"; "product"; "bank_name"; "quarter"].

(** A string of exactly four decimal digits. *)
Definition four_digits (y : string) : Prop :=
  String.length y = 4%nat /\ forallb PyStr.is_digit (list_ascii_of_string y) = true.

(** Every character of [s] satisfies [f]. *)
Fixpoint all_chars (f : ascii -> bool) (s : string) : bool :=
  match s with
  | EmptyString => true
  | String c s' => f c && all_chars f s'
  end.

(** The characters of the literals the parser writes: digits, capital
    letters and the dash. *)
Definition literal_char (c : ascii) : bool :=
  PyStr.is_digit c || PyStr.is_upper c || Ascii.eqb c "-"%char.

(** The metric [m] has an entry in the registry. *)
Definition registered (m : string) : bool :=
  match Compiler.METRIC_SQL !! m with
  | Some _ => true
  | None => false
  end.

(** The plan [d] with [ms] for its metrics. *)
Definition with_metrics (ms : list string) (d : Dsl.dsl) : Dsl.dsl :=
  {| Dsl.intent := Dsl.intent d;
     Dsl.metric_ids := Some ms;
     Dsl.dimensions := Dsl.dimensions d;
     Dsl.filters := Dsl.filters d;
     Dsl.time_range_of := Dsl.time_range_of d;
     Dsl.sort := Dsl.sort d;
     Dsl.limit := Dsl.limit d;
     Dsl.privacy := Dsl.privacy d;
     Dsl.export_of := Dsl.export_of d |}.

(** ** Sample inputs *)

Module Samples.

Definition narrative_field : Policy.field_request :=
  {| Policy.fr_field := Some "consumer_complaint_narrative";
     Policy.fr_sensitivity := Some "HIGH" |}.

Definition request_of (who : string) (fields : list Policy.field_request) (m : Z)
  : Policy.request :=
  {| Policy.req_user_attributes := Some {| Policy.role := Some who |};
     Policy.req_fields_requested := Some fields;
     Policy.req_privacy := Some {| Policy.min_group_size := Some m |} |}.

Definition env : Pipeline.environment :=
  {| Pipeline.today := {| PyDate.year := 2026; PyDate.month := 11; PyDate.day := 3 |};
     Pipeline.uuid4 := "00000000-0000-4000-8000-000000000000";
     Pipeline.utcnow := "2026-11-03T00:00:00+00:00" |}.

(** Stand-ins for the libraries, enough to run the pipeline on an example:
    a validator that accepts every text as one statement, a digest and a
    JSON printer. *)
Definition accept_all (sql : string) : Compiler.parse_outcome := Compiler.Parsed 1.

Definition digest (s : string) : string := s.

Definition dumps (m : gmap string Z) : string := "{...}".

Definition catalog : Catalog.catalog :=
  {| Catalog.data_products := Some [
       {| Catalog.dp_name := Some "dp_complaints";
          Catalog.dp_description := Some "Consumer complaints";
          Catalog.dp_dimensions := Some ["product"; "state"];
          Catalog.dp_metrics := Some ["complaint_volume"];
          Catalog.dp_version := Some "1.0";
          Catalog.dp_freshness := None |};
       {| Catalog.dp_name := Some "dp_call_reports";
          Catalog.dp_description := Some "Bank call reports";
          Catalog.dp_dimensions := Some ["quarter"; "bank_name"];
          Catalog.dp_metrics := Some ["net_income"];
          Catalog.dp_version := Some "1.0";
          Catalog.dp_freshness := Some "quarterly" |} ];
     Catalog.metrics := Some [
       {| Catalog.m_id := Some "net_income";
          Catalog.m_name := None;
          Catalog.m_description := Some "Net income";
          Catalog.m_data_product := Some "dp_call_reports" |} ] |}.

(** The values of the specification's example, one row each. *)
Definition six_rows : list (list Rows.cell) :=
  map (fun '(q, n) => [Rows.CStr q; Rows.CInt n])
      [("2020-Q1", 10); ("2020-Q2", 12); ("2020-Q3", 11);
       ("2020-Q4", 13); ("2021-Q1", 12); ("2021-Q2", 90)].

Definition six_columns : list string := ["quarter"; "total_net_income"].

(** A result whose metric is null in the first row only. *)
Definition leading_null_columns : list string := ["bank_id"; "total_net_income"].

Definition leading_null_rows : list (list Rows.cell) :=
  [ [Rows.CInt 1; Rows.CNull];
    [Rows.CInt 2; Rows.CInt 10];
    [Rows.CInt 3; Rows.CInt 12];
    [Rows.CInt 4; Rows.CInt 11];
    [Rows.CInt 5; Rows.CInt 13];
    [Rows.CInt 6; Rows.CInt 900] ].

Definition connection (sql : string) : Rows.exec_outcome :=
  Rows.Fetched six_columns six_rows.

(** The value of a result known to be [Ok]. *)
Definition get {A : Type} (fallback : A) (r : result A) : A :=
  match r with
  | Ok a => a
  | Raise _ => fallback
  end.

Definition empty_plan : Dsl.plan :=
  {| Dsl.plan_dsl :=
       {| Dsl.intent := None; Dsl.metric_ids := None; Dsl.dimensions := None;
          Dsl.filters := None; Dsl.time_range_of := None; Dsl.sort := None;
          Dsl.limit := None; Dsl.privacy := None; Dsl.export_of := None |};
     Dsl.fields_requested := None |}.

Definition income_query : string :=
  "Show quarterly net income trend for US banks since 2020 and highlight outliers.".

Definition income_plan : Dsl.plan :=
  get empty_plan (Parser.parse_nl_to_dsl (Pipeline.today env) income_query).

Definition income_run : Pipeline.run :=
  Pipeline.run_agent accept_all digest dumps env income_query connection "analyst" catalog.

Definition income_response : gmap string Pipeline.value :=
  get ∅ (Pipeline.response income_run).



Definition plan_with (metrics dims : list string) : Dsl.dsl :=
  {| Dsl.intent := Some "table";
     Dsl.metric_ids := Some metrics;
     Dsl.dimensions := Some dims;
     Dsl.filters := Some [];
     Dsl.time_range_of := None;
     Dsl.sort := Some [];
     Dsl.limit := Some 200;
     Dsl.privacy := Some {| Policy.min_group_size := Some 10 |};
     Dsl.export_of := None |}.

Definition narrative_query : string := "Can I see complaint narratives?".

Definition narrative_plan : Dsl.plan :=
  get empty_plan (Parser.parse_nl_to_dsl (Pipeline.today env) narrative_query).

(** A connection whose every statement fails. *)
Definition broken_connection (sql : string) : Rows.exec_outcome :=
  Rows.ExecError "Binder Error: column not found".

Definition broken_run : Pipeline.run :=
  Pipeline.run_agent accept_all digest dumps env income_query broken_connection
                     "analyst" catalog.

(** A catalog one of whose data products has no [name] key. *)
Definition unnamed_catalog : Catalog.catalog :=
  {| Catalog.data_products := Some [
       {| Catalog.dp_name := None;
          Catalog.dp_description := Some "Draft data product";
          Catalog.dp_dimensions := None;
          Catalog.dp_metrics := None;
          Catalog.dp_version := None;
          Catalog.dp_freshness := None |} ];
     Catalog.metrics := Some [] |}.

Definition unnamed_run : Pipeline.run :=
  Pipeline.run_agent accept_all digest dumps env income_query connection
                     "analyst" unnamed_catalog.

(** The statement of a run that executed one. *)
Definition statement_of (r : Pipeline.run) : string :=
  hd EmptyString (Pipeline.executed r).

End Samples.

(** * Properties *)

Lemma prefix_spec (w q : string) :
  String.prefix w q = true <-> exists post, q = w +:+ post.
Proof.
  revert q. induction w as [|c w IH]; intros q; simpl.
  - split; [intros _; exists q; reflexivity | intros _; destruct q; reflexivity].
  - destruct q as [|d q]; simpl.
    + split; [discriminate | intros [post H]; discriminate].
    + destruct (Ascii.ascii_dec c d) as [->|Hne].
      * rewrite IH. split; intros [post H]; exists post; [now rewrite H | now inversion H].
      * split; [discriminate | intros [post H]; injection H as H1 H2; congruence].
Qed.

Lemma contains_nil (w : string) :
  PyStr.contains w EmptyString = String.prefix w EmptyString || false.
Proof. reflexivity. Qed.

Lemma contains_cons (w : string) (d : ascii) (q : string) :
  PyStr.contains w (String d q) = String.prefix w (String d q) || PyStr.contains w q.
Proof. reflexivity. Qed.

Lemma contains_spec (w q : string) :
  PyStr.contains w q = true <-> occurs w q.
Proof.
  unfold occurs. induction q as [|d q IH]; [rewrite contains_nil | rewrite contains_cons].
  - rewrite orb_false_r, prefix_spec. split.
    + intros [post H]. exists EmptyString, post. exact H.
    + intros [pre [post H]]. destruct pre; simpl in H; [eauto | discriminate].
  - rewrite orb_true_iff, prefix_spec, IH. split.
    + intros [[post H] | [pre [post H]]].
      * exists EmptyString, post. exact H.
      * exists (String d pre), post. simpl. now rewrite H.
    + intros [pre [post H]]. destruct pre as [|e pre]; simpl in H.
      * left. eauto.
      * right. inversion H. eauto.
Qed.

Lemma any_in_spec (ws : list string) (q : string) :
  PyStr.any_in ws q = true <-> exists w, In w ws /\ occurs w q.
Proof.
  unfold PyStr.any_in. rewrite existsb_exists.
  split; intros [w [Hin H]]; exists w; (split; [exact Hin|]); now apply contains_spec.
Qed.

(** * Policy *)

(** One step of [policy_eval] through the two default rules. *)
Ltac default_rules :=
  unfold Policy.policy_eval;
  cbn [default Policy.DEFAULT_POLICIES Policy.eval_rules];
  change (Policy.rule_match Policy.deny_narrative_fields) with Policy.match_narrative;
  change (Policy.rule_match Policy.min_aggregation) with Policy.match_min_aggregation.

Lemma match_narrative_intro (req : Policy.request) (f : Policy.field_request) :
  In f (default [] (Policy.req_fields_requested req)) ->
  Policy.is_high f = true -> Policy.match_narrative req = true.
Proof.
  intros Hin Hf. unfold Policy.match_narrative. apply existsb_exists. eauto.
Qed.

Lemma exempt_narrative (who : string) :
  Policy.exempt Policy.deny_narrative_fields who = true <->
  who = "compliance_officer" \/ who = "admin".
Proof.
  unfold Policy.exempt; simpl. rewrite orb_false_r, orb_true_iff, !String.eqb_eq.
  reflexivity.
Qed.

(** Claim C3.  A request that contains a field of sensitivity HIGH (in any
    letter case, as [is_high] compares after [upper]) meets rule 1 of the
    default list first.  When the caller's role is neither
    [compliance_officer] nor [admin] the decision is DENY with the rule's
    rationale and empty constraints, whatever the requested group size.
    When the role is one of the two, the rule is passed over: the result is
    that of the remaining rules, and it is not DENY. *)
Theorem high_sensitivity_denied_unless_exempt
  (req : Policy.request) (f : Policy.field_request) :
  In f (default [] (Policy.req_fields_requested req)) ->
  Policy.is_high f = true ->
  let who := Policy.user_role req in
  (who <> "compliance_officer" -> who <> "admin" ->
   Policy.policy_eval req None =
     {| Policy.decision := "DENY";
        Policy.constraints := ∅;
        Policy.rationale := Policy.rule_rationale Policy.deny_narrative_fields |})
  /\
  (who = "compliance_officer" \/ who = "admin" ->
   Policy.policy_eval req None = Policy.eval_rules req who [Policy.min_aggregation]
   /\ Policy.decision (Policy.policy_eval req None) <> "DENY").
Proof.
  intros Hin Hf who.
  pose proof (match_narrative_intro req f Hin Hf) as Hm.
  default_rules. fold who. rewrite Hm. split.
  - intros H1 H2.
    destruct (Policy.exempt Policy.deny_narrative_fields who) eqn:E.
    + apply exempt_narrative in E. tauto.
    + reflexivity.
  - intros Hex. apply exempt_narrative in Hex. rewrite Hex.
    split; [reflexivity|].
    destruct (Policy.match_min_aggregation req); cbn; discriminate.
Qed.

Lemma high_sensitivity_denied_unless_exempt_witness :
  Policy.decision (Policy.policy_eval
     (Samples.request_of "analyst" [Samples.narrative_field] 5) None) = "DENY"
  /\ Policy.decision (Policy.policy_eval
     (Samples.request_of "admin" [Samples.narrative_field] 5) None) <> "DENY".
Proof.
  split.
  - destruct (high_sensitivity_denied_unless_exempt
               (Samples.request_of "analyst" [Samples.narrative_field] 5)
               Samples.narrative_field) as [Hdeny _].
    + simpl. left. reflexivity.
    + reflexivity.
    + rewrite Hdeny; [reflexivity | discriminate | discriminate].
  - destruct (high_sensitivity_denied_unless_exempt
               (Samples.request_of "admin" [Samples.narrative_field] 5)
               Samples.narrative_field) as [_ Hpass].
    + simpl. left. reflexivity.
    + reflexivity.
    + apply Hpass. right. reflexivity.
Defined.

(** Claim C7.  A request without HIGH-sensitivity fields whose privacy
    [min_group_size] is present and below 10 is answered, under the default
    rules, by ALLOW_WITH_CONSTRAINTS with constraints [min_group_size = 10]
    and the privacy rationale, whatever the caller's role. *)
Theorem low_group_size_constrained (req : Policy.request) (pr : Policy.privacy) (m : Z) :
  Forall (fun f => Policy.is_high f = false) (default [] (Policy.req_fields_requested req)) ->
  Policy.req_privacy req = Some pr ->
  Policy.min_group_size pr = Some m ->
  m < 10 ->
  Policy.policy_eval req None =
    {| Policy.decision := "ALLOW_WITH_CONSTRAINTS";
       Policy.constraints := {[ "min_group_size" := 10 ]};
       Policy.rationale := "Minimum group size of 10 enforced for privacy." |}.
Proof.
  intros Hn Hp Hm Hlt. default_rules.
  assert (Policy.match_narrative req = false) as ->.
  { unfold Policy.match_narrative.
    induction Hn as [|f fs Hf _ IH]; cbn; [reflexivity|]. now rewrite Hf, IH. }
  assert (Policy.match_min_aggregation req = true) as ->.
  { unfold Policy.match_min_aggregation, Policy.requested_min_group.
    rewrite Hp. cbn. rewrite Hm. cbn. apply Z.ltb_lt. exact Hlt. }
  reflexivity.
Qed.

Lemma low_group_size_constrained_witness :
  Policy.policy_eval (Samples.request_of "admin" [] 5) None =
    {| Policy.decision := "ALLOW_WITH_CONSTRAINTS";
       Policy.constraints := {[ "min_group_size" := 10 ]};
       Policy.rationale := "Minimum group size of 10 enforced for privacy." |}.
Proof.
  apply (low_group_size_constrained (Samples.request_of "admin" [] 5)
           {| Policy.min_group_size := Some 5 |} 5);
    [constructor | reflexivity | reflexivity | lia].
Defined.

(** * Intent *)

(** Claim C8, as stated, fails: the fallback intent is reached by a query
    that contains neither a chart keyword nor a table keyword. *)
Lemma analysis_intent_is_reachable :
  ~ (Parser._detect_intent "Can I see complaint narratives?" = "chart"
     \/ Parser._detect_intent "Can I see complaint narratives?" = "table").
Proof. vm_compute. intros [H | H]; discriminate H. Qed.

Lemma any_in_false (ws : list string) (q : string) :
  PyStr.any_in ws q = false <-> ~ exists w, In w ws /\ occurs w q.
Proof.
  rewrite <- any_in_spec. destruct (PyStr.any_in ws q); split; congruence.
Qed.

(** Claim C8, amended.  The detected intent is decided by the keywords that
    occur in the lower-cased query: [chart] exactly when a chart keyword
    occurs, [table] exactly when no chart keyword but a table keyword occurs
    (so chart takes precedence), and the fallback [analysis] exactly when
    neither class occurs. *)
Theorem intent_by_keywords (query : string) :
  let q := PyStr.lower query in
  let chart :=
    exists w, In w ["chart"; "trend"; "plot"; "graph"; "visuali"] /\ occurs w q in
  let tabular :=
    exists w, In w ["table"; "list"; "export"; "break down"; "breakdown"] /\ occurs w q in
  (Parser._detect_intent query = "chart" <-> chart)
  /\ (Parser._detect_intent query = "table" <-> ~ chart /\ tabular)
  /\ (Parser._detect_intent query = "analysis" <-> ~ chart /\ ~ tabular).
Proof.
  intros q chart tabular. unfold Parser._detect_intent. fold q.
  destruct (PyStr.any_in ["chart"; "trend"; "plot"; "graph"; "visuali"] q) eqn:Ec.
  - apply any_in_spec in Ec. fold chart in Ec.
    split; [tauto|]. split; (split; [discriminate | tauto]).
  - apply any_in_false in Ec. fold chart in Ec.
    destruct (PyStr.any_in ["table"; "list"; "export"; "break down"; "breakdown"] q) eqn:Et.
    + apply any_in_spec in Et. fold tabular in Et.
      split; [split; [discriminate | tauto]|].
      split; [tauto | split; [discriminate | tauto]].
    + apply any_in_false in Et. fold tabular in Et.
      split; [split; [discriminate | tauto]|].
      split; [split; [discriminate | tauto] | tauto].
Qed.

Lemma intent_by_keywords_witness :
  Parser._detect_intent "Plot the list of complaints" = "chart".
Proof.
  apply (intent_by_keywords "Plot the list of complaints").
  exists "plot". split; [cbn; auto|].
  exists EmptyString, " the list of complaints". reflexivity.
Defined.

(** * Parsed plans and the pipeline *)

Import Dsl Pipeline.

Lemma parse_inversion (today : PyDate.date) (query : string) (p : plan) :
  Parser.parse_nl_to_dsl today query = Ok p ->
  fields_requested p = Some (Parser._needs_narrative query)
  /\ privacy (plan_dsl p) = Some {| Policy.min_group_size := Some 10 |}
  /\ limit (plan_dsl p) = Some 200.
Proof.
  unfold Parser.parse_nl_to_dsl.
  destruct (Parser._detect_time_range today query) as [tr | e]; cbn; [|discriminate].
  intros H. injection H as <-. cbn. auto.
Qed.

(** The parser raises only when the window of a [last N months] request
    leaves the calendar. *)
Lemma parse_nl_to_dsl_outcome (today : PyDate.date) (query : string) :
  (exists p, Parser.parse_nl_to_dsl today query = Ok p)
  \/ (Parser.parse_nl_to_dsl today query = Raise OverflowError
      /\ Parser.search_since (PyStr.lower query) = None
      /\ exists ds, Parser.search_last_months (PyStr.lower query) = Some ds
           /\ PyDate.minus_days today (Parser.int_of_digits ds * 30) = Raise OverflowError).
Proof.
  unfold Parser.parse_nl_to_dsl, Parser._detect_time_range.
  destruct (Parser.search_since (PyStr.lower query)) as [y|]; [left; eexists; reflexivity|].
  destruct (Parser.search_last_months (PyStr.lower query)) as [ds|];
    [|left; eexists; reflexivity].
  destruct (PyDate.minus_days today (Parser.int_of_digits ds * 30)) as [d|e] eqn:E.
  - left. eexists. reflexivity.
  - right. assert (e = OverflowError) as ->.
    { unfold PyDate.minus_days in E.
      repeat match type of E with
             | (if ?c then _ else _) = _ => destruct c
             end; congruence. }
    cbn. repeat split. exists ds. split; [reflexivity | first [reflexivity | exact E]].
Qed.

Lemma parsed_request_not_below_minimum (today : PyDate.date) (query : string) (p : plan)
      (who : string) :
  Parser.parse_nl_to_dsl today query = Ok p ->
  Policy.match_min_aggregation (policy_request p who) = false.
Proof.
  intros H. destruct (parse_inversion _ _ _ H) as (_ & Hp & _).
  unfold Policy.match_min_aggregation, Policy.requested_min_group, policy_request.
  cbn. rewrite Hp. reflexivity.
Qed.

Lemma parsed_decision (today : PyDate.date) (query : string) (p : plan) (who : string) :
  Parser.parse_nl_to_dsl today query = Ok p ->
  Policy.policy_eval (policy_request p who) None = Policy.allow_all
  \/ Policy.decision (Policy.policy_eval (policy_request p who) None) = "DENY".
Proof.
  intros H. pose proof (parsed_request_not_below_minimum _ _ _ who H) as Hm.
  default_rules. rewrite Hm.
  destruct (Policy.match_narrative (policy_request p who)); [|left; reflexivity].
  destruct (Policy.exempt Policy.deny_narrative_fields
              (Policy.user_role (policy_request p who))); [left | right]; reflexivity.
Qed.

Lemma denied_lookup (p : plan) (pr : Policy.decision_record) :
  denied_response p pr !! "status" = Some (VStr "denied")
  /\ denied_response p pr !! "policy" = Some (VPolicy pr)
  /\ denied_response p pr !! "explanation" = Some (VStr (Policy.rationale pr))
  /\ denied_response p pr !! "alternative" = Some (VStr ALTERNATIVE)
  /\ denied_response p pr !! "dsl" = Some (VDsl (plan_dsl p))
  /\ denied_response p pr !! "sql" = None.
Proof. repeat split; vm_compute; reflexivity. Qed.

Lemma error_lookup (p : plan) (msg sql : string) :
  error_response p msg sql !! "status" = Some (VStr "error")
  /\ error_response p msg sql !! "policy" = None.
Proof. split; vm_compute; reflexivity. Qed.

Section PipelineProperties.

(** The libraries [run_agent] calls; nothing is assumed of them. *)
Variable sqlglot_parse : string -> Compiler.parse_outcome.
Variable sha256_hexdigest : string -> string.
Variable json_dumps : gmap string Z -> string.

Lemma postprocess_lookup
      (env : environment) (cat : Catalog.catalog) (p : plan)
      (pr : Policy.decision_record) (sql : string) (used columns : list string)
      (rows : list (list Rows.cell)) (m : gmap string value) :
  postprocess sha256_hexdigest json_dumps env cat p pr sql used columns rows = Ok m ->
  m !! "status" = Some (VStr "success")
  /\ m !! "policy" = Some (VPolicy pr)
  /\ m !! "sql" = Some (VStr sql)
  /\ exists e, m !! "evidence_pack" = Some (VEvidence e) /\ ev_policy_decision e = pr.
Proof.
  unfold postprocess.
  destruct (quality_status used cat) as [quality|e]; cbn; [|discriminate].
  destruct (Outliers.detect_outliers columns rows) as [idx|e]; cbn; [|discriminate].
  intros H. injection H as <-.
  split; [vm_compute; reflexivity|].
  split; [vm_compute; reflexivity|].
  split; [vm_compute; reflexivity|].
  eexists. split; [vm_compute; reflexivity | reflexivity].
Qed.

Lemma run_agent_denied
      (env : environment) (query : string)
      (con : string -> Rows.exec_outcome) (who : string) (cat : Catalog.catalog) (p : plan) :
  Parser.parse_nl_to_dsl (today env) query = Ok p ->
  Policy.decision (Policy.policy_eval (policy_request p who) None) = "DENY" ->
  run_agent sqlglot_parse sha256_hexdigest json_dumps env query con who cat =
    {| response := Ok (denied_response p (Policy.policy_eval (policy_request p who) None));
       executed := [] |}.
Proof.
  intros Hp Hd. unfold run_agent. rewrite Hp, Hd. reflexivity.
Qed.

(** Claim C1.  Whenever the query parses and the policy evaluation of the
    derived request decides DENY, [run_agent] returns a dictionary with
    exactly the keys status, policy, explanation, alternative and dsl: the
    status is [denied], the policy is the decision, the explanation is its
    rationale, the alternative is a non-empty text, the dsl is the parsed
    plan; there is no sql key, and no statement was passed to the
    connection.  This holds for every validator and every connection, none
    of which is consulted. *)
Theorem denial_is_terminal
  (env : environment) (query : string) (con : string -> Rows.exec_outcome)
  (who : string) (cat : Catalog.catalog) (p : plan) :
  Parser.parse_nl_to_dsl (today env) query = Ok p ->
  Policy.decision (Policy.policy_eval (policy_request p who) None) = "DENY" ->
  let policy_result := Policy.policy_eval (policy_request p who) None in
  let r := run_agent sqlglot_parse sha256_hexdigest json_dumps env query con who cat in
  executed r = []
  /\ exists m alt,
       response r = Ok m
       /\ dom m = {[ "status"; "policy"; "explanation"; "alternative"; "dsl" ]}
       /\ m !! "status" = Some (VStr "denied")
       /\ m !! "policy" = Some (VPolicy policy_result)
       /\ m !! "explanation" = Some (VStr (Policy.rationale policy_result))
       /\ m !! "alternative" = Some (VStr alt) /\ alt <> EmptyString
       /\ m !! "dsl" = Some (VDsl (plan_dsl p))
       /\ m !! "sql" = None.
Proof.
  intros Hp Hd policy_result r.
  pose proof (run_agent_denied env query con who cat p Hp Hd) as Hrun.
  fold policy_result in Hrun. fold r in Hrun. rewrite Hrun. cbn [executed response].
  split; [reflexivity|].
  exists (denied_response p policy_result), ALTERNATIVE.
  destruct (denied_lookup p policy_result) as (H1 & H2 & H3 & H4 & H5 & H6).
  split; [reflexivity|].
  split.
  { unfold denied_response. rewrite dom_list_to_map_L. cbn [fmap list_fmap fst].
    set_solver. }
  repeat (split; [assumption|]).
  split; [discriminate | split; assumption].
Qed.

(** Claim C9.  Every plan the parser returns has privacy
    [min_group_size = 10] and [limit = 200].  Hence the request [run_agent]
    derives from it never matches rule [min_aggregation], the decision is
    never ALLOW_WITH_CONSTRAINTS, and a returned dictionary is either the
    denial (decision DENY), the execution error (which carries no policy;
    the decision reached was ALLOW) or the success, whose policy and
    evidence pack carry decision ALLOW. *)
Theorem parsed_plans_are_never_constrained
  (env : environment) (query : string) (con : string -> Rows.exec_outcome)
  (who : string) (cat : Catalog.catalog) (p : plan) (m : gmap string value) :
  Parser.parse_nl_to_dsl (today env) query = Ok p ->
  response (run_agent sqlglot_parse sha256_hexdigest json_dumps env query con who cat)
    = Ok m ->
  (privacy (plan_dsl p) = Some {| Policy.min_group_size := Some 10 |}
   /\ limit (plan_dsl p) = Some 200)
  /\ Policy.match_min_aggregation (policy_request p who) = false
  /\ Policy.decision (Policy.policy_eval (policy_request p who) None)
       <> "ALLOW_WITH_CONSTRAINTS"
  /\ ((m !! "status" = Some (VStr "denied")
       /\ exists pr, m !! "policy" = Some (VPolicy pr) /\ Policy.decision pr = "DENY")
      \/ (m !! "status" = Some (VStr "error")
          /\ m !! "policy" = None
          /\ Policy.policy_eval (policy_request p who) None = Policy.allow_all)
      \/ (m !! "status" = Some (VStr "success")
          /\ m !! "policy" = Some (VPolicy Policy.allow_all)
          /\ exists e, m !! "evidence_pack" = Some (VEvidence e)
               /\ ev_policy_decision e = Policy.allow_all)).
Proof.
  intros Hp Hm.
  destruct (parse_inversion _ _ _ Hp) as (_ & Hpriv & Hlim).
  split; [auto|]. split; [eapply parsed_request_not_below_minimum; eassumption|].
  pose proof (parsed_decision _ _ _ who Hp) as Hdec.
  split. { destruct Hdec as [-> | ->]; discriminate. }
  unfold run_agent in Hm. rewrite Hp in Hm.
  destruct (String.eqb (Policy.decision (Policy.policy_eval (policy_request p who) None))
                       "DENY") eqn:Hd.
  - left. cbn in Hm. injection Hm as <-.
    destruct (denied_lookup p (Policy.policy_eval (policy_request p who) None))
      as (H1 & H2 & _).
    split; [exact H1|]. eexists. split; [exact H2|]. now apply String.eqb_eq.
  - right.
    assert (Policy.policy_eval (policy_request p who) None = Policy.allow_all) as Hallow.
    { destruct Hdec as [H | H]; [exact H|]. rewrite H in Hd. discriminate Hd. }
    rewrite Hallow in Hm.
    destruct (Compiler.compile_dsl_to_sql sqlglot_parse (Compiler.Wrapped p)
                (Some (Policy.constraints Policy.allow_all))) as [sql|e];
      [|discriminate Hm].
    destruct (con sql) as [columns rows | msg]; cbn in Hm.
    + right. apply postprocess_lookup in Hm. destruct Hm as (H1 & H2 & _ & H4). auto.
    + left. injection Hm as <-. destruct (error_lookup p msg sql) as [H1 H2]. auto.
Qed.

End PipelineProperties.

Lemma denial_is_terminal_witness :
  let r := run_agent Samples.accept_all Samples.digest Samples.dumps Samples.env
             Samples.narrative_query Samples.connection "analyst" Samples.catalog in
  executed r = []
  /\ exists m, response r = Ok m
       /\ m !! "status" = Some (VStr "denied") /\ m !! "sql" = None.
Proof.
  assert (Parser.parse_nl_to_dsl (today Samples.env) Samples.narrative_query
          = Ok Samples.narrative_plan) as Hp by (vm_compute; reflexivity).
  assert (Policy.decision
            (Policy.policy_eval (policy_request Samples.narrative_plan "analyst") None)
          = "DENY") as Hd by (vm_compute; reflexivity).
  destruct (denial_is_terminal Samples.accept_all Samples.digest Samples.dumps
              Samples.env Samples.narrative_query Samples.connection
              "analyst" Samples.catalog Samples.narrative_plan Hp Hd)
    as (Hex & m & alt & Hr & _ & Hs & _ & _ & _ & _ & _ & Hsql).
  split; [exact Hex|]. exists m. auto.
Defined.

Lemma parsed_plans_are_never_constrained_witness :
  Parser.parse_nl_to_dsl (today Samples.env) Samples.income_query = Ok Samples.income_plan
  /\ response Samples.income_run = Ok Samples.income_response
  /\ limit (plan_dsl Samples.income_plan) = Some 200
  /\ Policy.decision (Policy.policy_eval (policy_request Samples.income_plan "analyst") None)
       <> "ALLOW_WITH_CONSTRAINTS".
Proof.
  assert (Parser.parse_nl_to_dsl (today Samples.env) Samples.income_query
          = Ok Samples.income_plan) as Hp by (vm_compute; reflexivity).
  assert (response Samples.income_run = Ok Samples.income_response) as Hm
      by (vm_cast_no_check (eq_refl (Ok Samples.income_response))).
  destruct (parsed_plans_are_never_constrained
              Samples.accept_all Samples.digest Samples.dumps Samples.env
              Samples.income_query Samples.connection "analyst" Samples.catalog
              Samples.income_plan Samples.income_response Hp Hm)
    as ((_ & Hl) & _ & Hd & _).
  auto.
Defined.

(** * Quality status *)

Lemma existsb_eqb_elem_of (n : string) (ids : list string) :
  existsb (String.eqb n) ids = bool_decide (n ∈ ids).
Proof.
  induction ids as [|i ids IH]; cbn.
  - symmetry. apply bool_decide_eq_false. apply not_elem_of_nil.
  - rewrite IH. destruct (String.eqb n i) eqn:E; cbn.
    + apply String.eqb_eq in E. subst i. symmetry. apply bool_decide_eq_true.
      apply elem_of_cons. auto.
    + apply String.eqb_neq in E. apply bool_decide_ext.
      rewrite elem_of_cons. tauto.
Qed.

Lemma quality_loop_total (ids : list string) (dps : list Catalog.data_product) :
  Forall (fun dp => is_Some (Catalog.dp_name dp)) dps ->
  exists recs, quality_loop ids dps = Ok recs.
Proof.
  induction 1 as [|dp dps [n Hn] _ [rs IH]]; cbn.
  - eexists; reflexivity.
  - rewrite Hn, IH. cbn. eexists; reflexivity.
Qed.

(** Claim C10.  The records [quality_status] returns all have
    [tests_passed = True], and they describe, one for one and in catalog
    order, exactly the data products of the catalog whose name is among the
    requested dataset ids. *)
Theorem quality_status_reports (ids : list string) (cat : Catalog.catalog)
        (recs : list quality_record) :
  quality_status ids cat = Ok recs ->
  Forall (fun r => tests_passed r = true) recs
  /\ Forall2 describes recs
       (List.filter (named_in ids) (default [] (Catalog.data_products cat))).
Proof.
  unfold quality_status. generalize (default [] (Catalog.data_products cat)) as dps.
  intros dps. revert recs. induction dps as [|dp dps IH]; intros recs; cbn.
  - intros H. injection H as <-. split; constructor.
  - unfold named_in at 1. destruct (Catalog.dp_name dp) as [n|] eqn:Hn; [|discriminate].
    destruct (quality_loop ids dps) as [rs|e]; cbn; [|discriminate].
    destruct (IH rs eq_refl) as [IH1 IH2].
    rewrite existsb_eqb_elem_of.
    destruct (bool_decide (n ∈ ids)); intros H; injection H as <-.
    + split; constructor; auto. unfold describes, quality_of; cbn. auto.
    + auto.
Qed.

Lemma quality_status_reports_witness :
  exists recs,
    quality_status ["dp_call_reports"; "dp_macro_rates"] Samples.catalog = Ok recs
    /\ Forall (fun r => tests_passed r = true) recs
    /\ map dataset recs = ["dp_call_reports"].
Proof.
  destruct (quality_loop_total ["dp_call_reports"; "dp_macro_rates"]
              (default [] (Catalog.data_products Samples.catalog))) as [recs Hr].
  { repeat constructor; eexists; reflexivity. }
  exists recs. split; [exact Hr|].
  destruct (quality_status_reports _ _ _ Hr) as [Ht _].
  split; [exact Ht|].
  vm_compute in Hr. injection Hr as <-. reflexivity.
Defined.


(** * SQL compiler *)

Import Dsl Compiler.

Lemma truthy_spec (s : string) : PyStr.truthy s = true <-> s <> EmptyString.
Proof.
  unfold PyStr.truthy. rewrite negb_true_iff. apply String.eqb_neq.
Qed.

Lemma app_empty_inv (a b : string) :
  a +:+ b = EmptyString -> a = EmptyString /\ b = EmptyString.
Proof. destruct a; cbn; [auto | discriminate]. Qed.

Lemma join_empty (sep : string) (l : list string) :
  sep <> EmptyString ->
  (PyStr.join sep l = EmptyString <-> l = [] \/ l = [EmptyString]).
Proof.
  intros Hsep. unfold PyStr.join. destruct l as [|x [|y l]]; cbn.
  - tauto.
  - split; [intros ->; auto | intros [H | H]; congruence].
  - split.
    + intros H. apply app_empty_inv in H as [_ H].
      apply app_empty_inv in H as [H _]. contradiction.
    + intros [H | H]; discriminate H.
Qed.

Lemma overrides_nonempty (tbl d e : string) :
  overrides_of tbl !! d = Some e -> e <> EmptyString.
Proof.
  unfold overrides_of, DIMENSION_TABLE_OVERRIDE.
  destruct (decide (tbl = "dp_complaints")) as [-> | Hne].
  - rewrite lookup_singleton_eq. cbn.
    intros H. apply lookup_singleton_Some in H as [_ <-]. discriminate.
  - rewrite lookup_singleton_ne by congruence. cbn. rewrite lookup_empty. discriminate.
Qed.

Lemma dimension_col_identity (d v : string) :
  DIMENSION_COL !! d = Some v -> v = d.
Proof.
  unfold DIMENSION_COL. intros H.
  apply elem_of_list_to_map_2 in H.
  repeat (apply elem_of_cons in H as [H | H]; [injection H as -> ->; reflexivity|]).
  apply elem_of_nil in H. contradiction.
Qed.

Lemma dim_expr_empty (tbl d : string) :
  _dim_expr tbl d = EmptyString <-> d = EmptyString.
Proof.
  unfold _dim_expr.
  destruct (overrides_of tbl !! d) as [e|] eqn:E.
  - pose proof (overrides_nonempty _ _ _ E) as He. split; [contradiction|].
    intros ->. revert E. unfold overrides_of, DIMENSION_TABLE_OVERRIDE.
    destruct (decide (tbl = "dp_complaints")) as [-> | Hne].
    + rewrite lookup_singleton_eq. cbn. rewrite lookup_singleton_ne by discriminate.
      discriminate.
    + rewrite lookup_singleton_ne by congruence. cbn. rewrite lookup_empty. discriminate.
  - destruct (DIMENSION_COL !! d) as [v|] eqn:Ev; cbn; [|tauto].
    apply dimension_col_identity in Ev. subst v. tauto.
Qed.

Lemma group_by_text_empty (tbl : string) (dims : list string) :
  group_by_text tbl dims = EmptyString <-> dims = [] \/ dims = [EmptyString].
Proof.
  unfold group_by_text. rewrite join_empty by discriminate.
  destruct dims as [|d [|d' dims]]; cbn.
  - tauto.
  - split; (intros [H | H]; [discriminate H | right]).
    + injection H as H. apply dim_expr_empty in H. now subst d.
    + injection H as ->. f_equal. now apply dim_expr_empty.
  - split; intros [H | H]; discriminate H.
Qed.

(** The condition under which a GROUP BY clause is written. *)
Lemma grouped_spec (tbl : string) (dims : list string) :
  PyStr.truthy (group_by_text tbl dims) = true <-> dims <> [] /\ dims <> [EmptyString].
Proof.
  rewrite truthy_spec, group_by_text_empty. tauto.
Qed.

Lemma needs_having_spec (tbl : string) (dims : list string) (t : Z) :
  needs_having tbl dims t = true <->
  (dims <> [] /\ dims <> [EmptyString]) /\ tbl = "dp_complaints" /\ t <> 0.
Proof.
  unfold needs_having.
  rewrite !andb_true_iff, negb_true_iff, Z.eqb_neq, String.eqb_eq, grouped_spec. tauto.
Qed.

Lemma effective_min_group_spec (plan : dsl) (constraints : option (gmap string Z)) :
  effective_min_group plan constraints =
  match constraints with
  | Some c =>
      match c !! "min_group_size" with
      | Some t => t
      | None => default 10 (p ← privacy plan; Policy.min_group_size p)
      end
  | None => default 10 (p ← privacy plan; Policy.min_group_size p)
  end.
Proof.
  unfold effective_min_group. destruct constraints as [c|]; cbn.
  - destruct (c !! "min_group_size"); reflexivity.
  - rewrite lookup_empty. reflexivity.
Qed.

Lemma compile_inversion (parse : string -> parse_outcome) (src : source)
      (constraints : option (gmap string Z)) (sql : string) :
  compile_dsl_to_sql parse src constraints = Ok sql ->
  exists m rest meta,
    default [] (metric_ids (inner src)) = m :: rest
    /\ METRIC_SQL !! m = Some meta
    /\ sql = assemble (inner src) constraints (table meta)
    /\ exists n, parse sql = Parsed (S n).
Proof.
  unfold compile_dsl_to_sql.
  destruct (default [] (metric_ids (inner src))) as [|m rest] eqn:Hm; [discriminate|].
  destruct (METRIC_SQL !! m) as [meta|] eqn:Hmeta; [|discriminate].
  unfold validate.
  destruct (parse (assemble (inner src) constraints (table meta))) as [[|n] | msg | e] eqn:E;
    try discriminate.
  intros H. injection H as <-. exists m, rest, meta.
  split; [reflexivity|]. split; [exact Hmeta|]. split; [reflexivity|].
  exists n. exact E.
Qed.

(** Claim C2, as stated, fails: with the single dimension equal to the empty
    string the dimension list is not empty, the table is [dp_complaints] and
    the effective minimum group size is 10, yet the GROUP BY text is empty
    and neither GROUP BY nor HAVING is written. *)
Lemma blank_dimension_gets_no_having :
  let plan := Samples.plan_with ["complaint_volume"] [EmptyString] in
  let constraints := Some ({[ "min_group_size" := 10 ]} : gmap string Z) in
  default [] (dimensions plan) <> []
  /\ table <$> METRIC_SQL !! "complaint_volume" = Some "dp_complaints"
  /\ effective_min_group plan constraints = 10
  /\ having_text "dp_complaints" (default [] (dimensions plan)) 10 = EmptyString
  /\ assemble plan constraints "dp_complaints"
     = "SELECT , COUNT(*) AS complaint_count FROM dp_complaints LIMIT 200"
  /\ compile_dsl_to_sql Samples.accept_all (Bare plan) constraints
     = Ok "SELECT , COUNT(*) AS complaint_count FROM dp_complaints LIMIT 200".
Proof.
  cbv zeta. split; [discriminate|].
  repeat split; vm_compute; reflexivity.
Qed.

(** Claim C2, amended.  In the SQL text [compile_dsl_to_sql] returns, the
    HAVING clause with threshold [t] is present exactly when a GROUP BY
    clause is written (the dimension list is neither empty nor the single
    empty string), the table of the first metric is [dp_complaints] and [t]
    is not zero; [t] is the [min_group_size] of the constraints when they
    have one, otherwise the plan's own privacy [min_group_size], otherwise
    10.  Against [dp_call_reports] there is never a HAVING clause. *)
Theorem having_only_for_grouped_record_level
  (parse : string -> parse_outcome) (src : source)
  (constraints : option (gmap string Z)) (sql : string) :
  compile_dsl_to_sql parse src constraints = Ok sql ->
  let plan := inner src in
  let dims := default [] (dimensions plan) in
  let declared := default 10 (p ← privacy plan; Policy.min_group_size p) in
  let t := default declared (c ← constraints; c !! "min_group_size") in
  exists m rest meta having,
    default [] (metric_ids plan) = m :: rest
    /\ METRIC_SQL !! m = Some meta
    /\ sql =
        "SELECT " +:+ PyStr.join ", " (select_parts (table meta) dims (m :: rest))
          +:+ " FROM " +:+ table meta
          +:+ where_clause (where_parts (table meta) (time_range_of plan)
                                        (default [] (filters plan)))
          +:+ clause " GROUP BY " (group_by_text (table meta) dims)
          +:+ having
          +:+ clause " ORDER BY " (order_by_text (table meta) (default [] (sort plan)))
          +:+ limit_clause (default 200 (limit plan))
    /\ ((dims <> [] /\ dims <> [EmptyString])
        /\ table meta = "dp_complaints" /\ t <> 0 ->
        having = " HAVING COUNT(*) >= " +:+ PyStr.of_Z t)
    /\ (~ ((dims <> [] /\ dims <> [EmptyString])
           /\ table meta = "dp_complaints" /\ t <> 0) ->
        having = EmptyString)
    /\ (table meta = "dp_call_reports" -> having = EmptyString).
Proof.
  intros H plan dims declared t.
  apply compile_inversion in H as (m & rest & meta & Hm & Hmeta & Hsql & _).
  fold plan in Hm, Hsql.
  assert (effective_min_group plan constraints = t) as Ht.
  { rewrite effective_min_group_spec. unfold t, declared.
    destruct constraints as [c|]; cbn; [destruct (c !! "min_group_size")|]; reflexivity. }
  exists m, rest, meta, (clause " " (having_text (table meta) dims t)).
  split; [exact Hm|]. split; [exact Hmeta|].
  split. { rewrite Hsql. unfold assemble. fold dims. rewrite Hm, Ht. reflexivity. }
  unfold having_text.
  destruct (needs_having (table meta) dims t) eqn:E.
  - apply needs_having_spec in E. split; [reflexivity|]. split; [tauto|].
    intros Htbl. destruct E as (_ & E & _). rewrite E in Htbl. discriminate Htbl.
  - assert (~ ((dims <> [] /\ dims <> [EmptyString])
               /\ table meta = "dp_complaints" /\ t <> 0)) as Hn.
    { rewrite <- needs_having_spec, E. discriminate. }
    split; [tauto|]. split; reflexivity.
Qed.

Lemma having_only_for_grouped_record_level_witness :
  let src := Bare (Samples.plan_with ["complaint_volume"] ["product"; "state"]) in
  let constraints := Some ({[ "min_group_size" := 25 ]} : gmap string Z) in
  exists sql having,
    compile_dsl_to_sql Samples.accept_all src constraints = Ok sql
    /\ having = " HAVING COUNT(*) >= 25"
    /\ sql = "SELECT product, state, COUNT(*) AS complaint_count FROM dp_complaints"
             +:+ " GROUP BY product, state" +:+ having +:+ " LIMIT 200".
Proof.
  intros src constraints.
  destruct (compile_dsl_to_sql Samples.accept_all src constraints) as [sql|e] eqn:Hc;
    [|vm_compute in Hc; discriminate Hc].
  destruct (having_only_for_grouped_record_level _ _ _ _ Hc)
    as (m & rest & meta & having & Hm & Hmeta & Hsql & Hyes & _).
  vm_compute in Hm. injection Hm as <- <-.
  vm_compute in Hmeta. injection Hmeta as <-.
  exists sql, having. split; [reflexivity|].
  assert (having = " HAVING COUNT(*) >= 25") as Hh.
  { rewrite Hyes; [reflexivity|]. repeat split; discriminate. }
  split; [exact Hh|]. rewrite Hsql, Hh. vm_compute. reflexivity.
Defined.

(** * Compilation outcome *)









(** * Outlier scan *)

Import Rows Outliers.

Lemma index_bound (columns : list string) (c : string) (i : nat) :
  index columns c = Ok i -> (i < length columns)%nat.
Proof.
  revert i. induction columns as [|c' cols IH]; intros i; cbn; [discriminate|].
  destruct (String.eqb c' c).
  - intros H. injection H as <-. lia.
  - destruct (index cols c) as [k|e]; cbn; [|discriminate].
    intros H. injection H as <-. specialize (IH k eq_refl). lia.
Qed.

Lemma index_found (columns : list string) (c : string) :
  In c columns -> exists i, index columns c = Ok i.
Proof.
  induction columns as [|c' cols IH]; cbn; [contradiction|].
  intros Hin. destruct (String.eqb c' c) eqn:E; [eauto|].
  destruct Hin as [-> | Hin]; [rewrite String.eqb_refl in E; discriminate|].
  destruct (IH Hin) as [i ->]. cbn. eauto.
Qed.

Lemma at_index_lookup (row : list cell) (i : nat) :
  (i < length row)%nat -> exists x, row !! i = Some x /\ at_index row i = Ok x.
Proof.
  intros H. unfold at_index.
  destruct (row !! i) as [x|] eqn:E; [eauto|].
  apply lookup_ge_None in E. lia.
Qed.

Lemma any_numeric_at_spec (n i : nat) (rows : list (list cell)) :
  Forall (fun row => length row = n) rows -> (i < n)%nat ->
  any_numeric_at i rows =
    Ok (existsb (fun row => match row !! i with
                            | Some x => is_numeric x
                            | None => false
                            end) rows).
Proof.
  intros Hrect Hi. induction Hrect as [|row rows Hrow _ IH]; cbn; [reflexivity|].
  destruct (at_index_lookup row i) as (x & Hx & ->); [lia|]. cbn. rewrite Hx.
  destruct (is_numeric x); [reflexivity | exact IH].
Qed.

Lemma numeric_columns_spec (all_columns : list string) (sample : list (list cell))
      (columns : list string) :
  Forall (fun row => length row = length all_columns) sample ->
  incl columns all_columns ->
  numeric_columns all_columns sample columns =
    Ok (List.filter
          (fun c => existsb (fun row => numeric_under all_columns row c) sample)
          columns).
Proof.
  intros Hrect. induction columns as [|c cols IH]; intros Hincl; cbn; [reflexivity|].
  destruct (index_found all_columns c) as [i Hi]; [apply Hincl; left; reflexivity|].
  rewrite Hi. cbn.
  rewrite (any_numeric_at_spec (length all_columns)); [|exact Hrect|eapply index_bound; eauto].
  cbn. rewrite IH by (intros x Hx; apply Hincl; right; exact Hx). cbn.
  assert (existsb (fun row => numeric_under all_columns row c) sample
          = existsb (fun row => match row !! i with
                                | Some x => is_numeric x
                                | None => false
                                end) sample) as ->.
  { clear - Hi. induction sample as [|row sample IHs]; cbn; [reflexivity|].
    rewrite IHs. unfold numeric_under at 1. rewrite Hi. reflexivity. }
  reflexivity.
Qed.


(** Claim C5, as stated, fails: with a null in the first row of the last
    column, that column holds numbers in every later row, but the column
    the scan takes for the metric is the one before it, and the outlier in
    the last column is missed. *)
Lemma leading_null_hides_the_metric :
  (4 <= length Samples.leading_null_rows)%nat
  /\ last_numeric_column Samples.leading_null_columns Samples.leading_null_rows
     = Some "total_net_income"
  /\ metric_column Samples.leading_null_columns Samples.leading_null_rows
     = Ok (Some "bank_id")
  /\ detect_outliers Samples.leading_null_columns Samples.leading_null_rows = Ok []
  /\ scan 1 Samples.leading_null_rows = Ok [5%nat].
Proof. repeat split; vm_compute; try reflexivity. lia. Qed.

Lemma metric_column_spec (columns : list string) (rows : list (list cell)) :
  rectangular columns (take 1 rows) ->
  metric_column columns rows = Ok (last_numeric_column columns (take 1 rows)).
Proof.
  intros Hrect. unfold metric_column, last_numeric_column.
  rewrite numeric_columns_spec; [reflexivity | exact Hrect | apply incl_refl].
Qed.


Lemma last_filter_split {A : Type} (f : A -> bool) (l : list A) (x : A) :
  last (List.filter f l) = Some x ->
  f x = true
  /\ exists before after,
       l = (before ++ x :: after)%list /\ Forall (fun z => f z = false) after.
Proof.
  induction l as [|a l IH]; cbn; [discriminate|].
  destruct (f a) eqn:Ha.
  - rewrite last_cons. destruct (last (List.filter f l)) as [y|] eqn:Hl.
    + intros H. injection H as ->. destruct (IH eq_refl) as (Hx & l1 & l2 & -> & Hall).
      split; [exact Hx|]. exists (a :: l1), l2. split; [reflexivity | exact Hall].
    + intros H. injection H as <-. split; [exact Ha|].
      exists [], l. split; [reflexivity|].
      apply last_None in Hl. apply Forall_forall. intros z Hz.
      destruct (f z) eqn:Hfz; [|reflexivity].
      assert (In z (List.filter f l)) as Hin
          by (apply filter_In; split; [apply list_elem_of_In, Hz | exact Hfz]).
      rewrite Hl in Hin. destruct Hin.
  - intros H. destruct (IH H) as (Hx & l1 & l2 & -> & Hall).
    split; [exact Hx|]. exists (a :: l1), l2. split; [reflexivity | exact Hall].
Qed.

(** Claim C5, amended.  The column treated as the metric is the last column
    whose cell in the first row of the result is numeric: it is numeric in
    the first row, no column after it is, and the rows after the first play
    no part in the choice. *)
Theorem metric_column_from_first_row
  (columns : list string) (first : list cell) (rest : list (list cell)) :
  length first = length columns ->
  metric_column columns (first :: rest) = Ok (last_numeric_column columns [first])
  /\ metric_column columns (first :: rest) = metric_column columns [first]
  /\ forall c, metric_column columns (first :: rest) = Ok (Some c) ->
       numeric_under columns first c = true
       /\ exists before after,
            columns = (before ++ c :: after)%list
            /\ Forall (fun c' => numeric_under columns first c' = false) after.
Proof.
  intros Hlen.
  assert (rectangular columns [first]) as Hrect by (repeat constructor; exact Hlen).
  pose proof (metric_column_spec columns (first :: rest) Hrect) as Hall.
  pose proof (metric_column_spec columns [first] Hrect) as Hone.
  change (take 1 (first :: rest)) with [first] in Hall.
  change (take 1 [first]) with [first] in Hone.
  split; [exact Hall|]. split; [congruence|].
  intros c Hc. rewrite Hall in Hc. injection Hc as Hc.
  unfold last_numeric_column in Hc. apply last_filter_split in Hc.
  cbn [existsb] in Hc. rewrite orb_false_r in Hc.
  destruct Hc as (Hnum & before & after & Hsplit & Hafter).
  split; [exact Hnum|]. exists before, after. split; [exact Hsplit|].
  eapply Forall_impl; [exact Hafter|]. cbn. intros c'. now rewrite orb_false_r.
Qed.

Lemma metric_column_from_first_row_witness :
  metric_column Samples.leading_null_columns Samples.leading_null_rows
  = Ok (Some "bank_id")
  /\ numeric_under Samples.leading_null_columns [CInt 1; CNull] "bank_id" = true.
Proof.
  destruct (metric_column_from_first_row Samples.leading_null_columns
              [CInt 1; CNull] (tl Samples.leading_null_rows) eq_refl)
    as (Hfirst & _ & Hlast).
  assert (metric_column Samples.leading_null_columns Samples.leading_null_rows
          = Ok (Some "bank_id")) as Hc by exact Hfirst.
  split; [exact Hc|]. apply (Hlast "bank_id" Hc).
Defined.

#[local] Instance Qle_transitive : Transitive Qle.
Proof. intros x y z. apply Qle_trans. Qed.

#[local] Instance Qle_total : Total Qle.
Proof.
  intros x y. destruct (Qlt_le_dec x y) as [H | H]; [left; apply Qlt_le_weak, H | right; exact H].
Qed.








(** * Further properties: the policy engine *)

Lemma eval_rules_passed_over (req : Policy.request) (pre rest : list Policy.rule) :
  Forall (passed_over req) pre ->
  Policy.eval_rules req (Policy.user_role req) (pre ++ rest)%list
  = Policy.eval_rules req (Policy.user_role req) rest.
Proof.
  induction 1 as [|r pre Hr _ IH]; [reflexivity|].
  cbn [app Policy.eval_rules]. rewrite IH.
  destruct Hr as [Hr | [Hr | [Hd Hc]]].
  - now rewrite Hr.
  - rewrite Hr. now destruct (Policy.rule_match r req).
  - apply String.eqb_neq in Hd, Hc. rewrite Hd, Hc.
    destruct (Policy.rule_match r req); [|reflexivity].
    now destruct (Policy.exempt r (Policy.user_role req)).
Qed.

(** Property X1.  With any list of rules, the first rule that matches the
    request, does not exempt the caller's role and has one of the two known
    actions decides: a DENY rule gives DENY with no constraints and the
    rule's rationale, an ALLOW_WITH_CONSTRAINTS rule gives its constraints
    (none when the rule has no such key) and its rationale.  Rules before
    it that do not match, exempt the role or carry an unknown action are
    passed over; rules after it are not consulted. *)
Theorem first_applicable_rule_decides
  (req : Policy.request) (pre post : list Policy.rule) (r : Policy.rule) :
  Forall (passed_over req) pre ->
  Policy.rule_match r req = true ->
  Policy.exempt r (Policy.user_role req) = false ->
  (Policy.rule_action r = "DENY" ->
   Policy.policy_eval req (Some (pre ++ r :: post)%list) =
     {| Policy.decision := "DENY"; Policy.constraints := ∅;
        Policy.rationale := Policy.rule_rationale r |})
  /\ (Policy.rule_action r = "ALLOW_WITH_CONSTRAINTS" ->
      Policy.policy_eval req (Some (pre ++ r :: post)%list) =
        {| Policy.decision := "ALLOW_WITH_CONSTRAINTS";
           Policy.constraints := default ∅ (Policy.rule_constraints r);
           Policy.rationale := Policy.rule_rationale r |}).
Proof.
  intros Hpre Hm He. unfold Policy.policy_eval.
  change (default Policy.DEFAULT_POLICIES (Some (pre ++ r :: post)%list))
    with (pre ++ r :: post)%list.
  rewrite (eval_rules_passed_over req pre (r :: post) Hpre).
  cbn [Policy.eval_rules]. rewrite Hm, He.
  split; intros ->; reflexivity.
Qed.

Lemma first_applicable_rule_decides_witness :
  Policy.decision
    (Policy.policy_eval (Samples.request_of "admin" [Samples.narrative_field] 5)
                        (Some ([Policy.deny_narrative_fields] ++ Policy.min_aggregation :: [])%list))
  = "ALLOW_WITH_CONSTRAINTS".
Proof.
  destruct (first_applicable_rule_decides
              (Samples.request_of "admin" [Samples.narrative_field] 5)
              [Policy.deny_narrative_fields] [] Policy.min_aggregation) as [_ H].
  - constructor; [|constructor]. right. left. reflexivity.
  - reflexivity.
  - reflexivity.
  - rewrite H; reflexivity.
Defined.

Lemma eval_rules_shape (req : Policy.request) (who : string) (rules : list Policy.rule) :
  let d := Policy.eval_rules req who rules in
  d = Policy.allow_all
  \/ (Policy.decision d = "DENY" /\ Policy.constraints d = ∅)
  \/ Policy.decision d = "ALLOW_WITH_CONSTRAINTS".
Proof.
  induction rules as [|r rules IH]; cbn [Policy.eval_rules]; [left; reflexivity|].
  destruct (Policy.rule_match r req); [|exact IH].
  destruct (Policy.exempt r who); [exact IH|].
  destruct (String.eqb (Policy.rule_action r) "DENY"); [right; left; auto|].
  destruct (String.eqb (Policy.rule_action r) "ALLOW_WITH_CONSTRAINTS"); [right; right; auto|].
  exact IH.
Qed.

(** Property X2.  For every request and every list of rules the decision is
    one of ALLOW, DENY and ALLOW_WITH_CONSTRAINTS; the constraints are empty
    unless the decision is ALLOW_WITH_CONSTRAINTS; and the decision is ALLOW
    exactly when every rule is passed over. *)
Theorem decision_shape (req : Policy.request) (policies : option (list Policy.rule)) :
  let d := Policy.policy_eval req policies in
  (Policy.decision d = "ALLOW" \/ Policy.decision d = "DENY"
   \/ Policy.decision d = "ALLOW_WITH_CONSTRAINTS")
  /\ (Policy.decision d <> "ALLOW_WITH_CONSTRAINTS" -> Policy.constraints d = ∅)
  /\ (Policy.decision d = "ALLOW" <->
      Forall (passed_over req) (default Policy.DEFAULT_POLICIES policies)).
Proof.
  cbv zeta. unfold Policy.policy_eval.
  generalize (default Policy.DEFAULT_POLICIES policies) as rules. intros rules.
  pose proof (eval_rules_shape req (Policy.user_role req) rules) as Hs. cbv zeta in Hs.
  split; [|split].
  - destruct Hs as [-> | [[H _] | H]]; auto.
  - destruct Hs as [-> | [[_ H] | H]]; [reflexivity | auto | contradiction].
  - clear Hs. induction rules as [|r rules IH]; cbn [Policy.eval_rules].
    + split; [constructor | reflexivity].
    + unfold passed_over at 1.
      destruct (Policy.rule_match r req) eqn:Hm.
      2:{ rewrite IH. split; [intros H; constructor; auto | intros H; now inversion H]. }
      destruct (Policy.exempt r (Policy.user_role req)) eqn:He.
      { rewrite IH. split; [intros H; constructor; auto | intros H; now inversion H]. }
      destruct (String.eqb (Policy.rule_action r) "DENY") eqn:Hd.
      { apply String.eqb_eq in Hd. cbn. split; [discriminate|].
        intros H. inversion H as [|? ? Hp _]; subst.
        unfold passed_over in Hp. rewrite Hm, He in Hp.
        destruct Hp as [Hp | [Hp | [Hp _]]]; congruence. }
      destruct (String.eqb (Policy.rule_action r) "ALLOW_WITH_CONSTRAINTS") eqn:Hc.
      { apply String.eqb_eq in Hc. cbn. split; [discriminate|].
        intros H. inversion H as [|? ? Hp _]; subst.
        unfold passed_over in Hp. rewrite Hm, He in Hp.
        destruct Hp as [Hp | [Hp | [_ Hp]]]; congruence. }
      apply String.eqb_neq in Hd, Hc.
      rewrite IH. split; [intros H; constructor; [unfold passed_over; auto | auto]
                         | intros H; now inversion H].
Qed.

(** * Further properties: the parser *)

Import Dsl.

Lemma lower_char_not_upper (c : ascii) : PyStr.is_upper (PyStr.lower_char c) = false.
Proof.
  destruct c as [b0 b1 b2 b3 b4 b5 b6 b7];
    destruct b0, b1, b2, b3, b4, b5, b6, b7; reflexivity.
Qed.

Lemma lower_char_idempotent (c : ascii) :
  PyStr.lower_char (PyStr.lower_char c) = PyStr.lower_char c.
Proof.
  unfold PyStr.lower_char at 1. now rewrite lower_char_not_upper.
Qed.

Lemma lower_idempotent (q : string) : PyStr.lower (PyStr.lower q) = PyStr.lower q.
Proof.
  unfold PyStr.lower. induction q as [|c q IH]; cbn; [reflexivity|].
  now rewrite IH, lower_char_idempotent.
Qed.

Lemma search_state_lower (prev : bool) (q : string) :
  Parser.search_state prev (PyStr.lower q) = None.
Proof.
  unfold PyStr.lower. revert prev. induction q as [|a q IH]; intros prev; [reflexivity|].
  cbn [PyStr.map_chars Parser.search_state]. rewrite IH.
  rewrite lower_char_not_upper, andb_false_r.
  now destruct (PyStr.map_chars PyStr.lower_char q).
Qed.

Lemma parse_fields (today : PyDate.date) (query : string) (p : plan) :
  Parser.parse_nl_to_dsl today query = Ok p ->
  exists tr,
    Parser._detect_time_range today query = Ok tr
    /\ p = {| plan_dsl := {|
                intent := Some (Parser._detect_intent query);
                metric_ids := Some (Parser._detect_metrics query);
                dimensions := Some (Parser._detect_dimensions query);
                filters := Some (Parser._detect_filters query);
                time_range_of := Some tr;
                sort := Some [ {| s_field := Parser.first_dimension query;
                                  s_direction := Some "asc" |} ];
                limit := Some 200;
                privacy := Some {| Policy.min_group_size := Some 10 |};
                export_of := Some (Parser._detect_export query) |};
              fields_requested := Some (Parser._needs_narrative query) |}.
Proof.
  unfold Parser.parse_nl_to_dsl.
  destruct (Parser._detect_time_range today query) as [tr|e]; cbn; [|discriminate].
  intros H. injection H as <-. eauto.
Qed.

(** Property X3.  Only the state filter reads the query as typed.  A
    lower-cased query never yields a filter, and parsing the lower-cased
    query gives the plan of the original query with its filters emptied
    (or the same exception). *)
Theorem lowercase_query_loses_only_filters (today : PyDate.date) (query : string) :
  Parser._detect_filters (PyStr.lower query) = []
  /\ match Parser.parse_nl_to_dsl today query with
     | Ok p => Parser.parse_nl_to_dsl today (PyStr.lower query) = Ok (without_filters p)
     | Raise e => Parser.parse_nl_to_dsl today (PyStr.lower query) = Raise e
     end.
Proof.
  assert (Parser._detect_filters (PyStr.lower query) = []) as Hf.
  { unfold Parser._detect_filters. now rewrite search_state_lower. }
  split; [exact Hf|].
  unfold Parser.parse_nl_to_dsl, Parser._detect_time_range, Parser._detect_intent,
    Parser._detect_metrics, Parser._detect_dimensions, Parser._detect_export,
    Parser._needs_narrative, Parser.first_dimension, Parser._detect_dimensions.
  rewrite Hf, !lower_idempotent.
  destruct (Parser.search_since (PyStr.lower query)); [reflexivity|].
  destruct (Parser.search_last_months (PyStr.lower query)); [|reflexivity].
  destruct (PyDate.minus_days today (Parser.int_of_digits s * 30)); reflexivity.
Qed.

Lemma search_state_found (prev : bool) (q st : string) :
  Parser.search_state prev q = Some st ->
  occurs st q
  /\ exists a b, st = String a (String b EmptyString)
       /\ PyStr.is_upper a = true /\ PyStr.is_upper b = true.
Proof.
  revert prev. induction q as [|a q IH]; intros prev; [discriminate|].
  cbn [Parser.search_state].
  destruct q as [|b after].
  - cbn. discriminate.
  - destruct (negb prev && PyStr.is_upper a && PyStr.is_upper b &&
              match after with
              | EmptyString => true
              | String c _ => negb (PyStr.is_word c)
              end) eqn:E.
    + intros H. injection H as <-.
      apply andb_true_iff in E as [E _]. apply andb_true_iff in E as [E Hb].
      apply andb_true_iff in E as [_ Ha].
      split.
      * exists EmptyString, after. cbn. now destruct after.
      * exists a, b. cbn. split; [now destruct after | auto].
    + intros H. apply IH in H as [(pre & post & Hq) Hst].
      split; [|exact Hst]. exists (String a pre), post. cbn. now rewrite Hq.
Qed.

(** Property X4.  [_detect_filters] returns no filter, or exactly one
    filter [state = st] where [st] is one of the ten listed state codes and
    occurs in the query as typed. *)
Theorem filters_are_whitelisted_states (query : string) :
  Parser._detect_filters query = []
  \/ exists st,
       In st Parser.STATES
       /\ occurs st query
       /\ Parser._detect_filters query
          = [ {| f_field := "state"; f_op := "="; f_value := st |} ].
Proof.
  unfold Parser._detect_filters.
  destruct (Parser.search_state false query) as [st|] eqn:E; [|left; reflexivity].
  destruct (existsb (String.eqb st) Parser.STATES) eqn:Hw; [|left; reflexivity].
  right. exists st. apply search_state_found in E as [Hocc _].
  apply existsb_exists in Hw as (x & Hin & Hx). apply String.eqb_eq in Hx. subst x.
  auto.
Qed.

Ltac decide_closed := apply (bool_decide_unpack _); vm_compute; reflexivity.

Ltac closed_sublist :=
  repeat first [ apply sublist_nil | apply sublist_skip | apply sublist_cons ].

Lemma append_if_app (c : bool) (m : string) (acc : list string) :
  Parser.append_if c m acc = (acc ++ (if c then [m] else []))%list.
Proof. destruct c; cbn; [reflexivity | now rewrite app_nil_r]. Qed.

Lemma optional_sublist (c : bool) (m : string) :
  (if c then [m] else []) `sublist_of` [m].
Proof. destruct c; [reflexivity | apply sublist_nil_l]. Qed.

Lemma detect_metrics_shape (query : string) :
  Parser._detect_metrics query <> []
  /\ Parser._detect_metrics query `sublist_of` PARSER_METRICS.
Proof.
  unfold Parser._detect_metrics. rewrite !append_if_app.
  generalize (PyStr.lower query) as q. intros q.
  match goal with
  | |- context [match ?l with [] => _ | _ :: _ => _ end] =>
      assert (l `sublist_of` PARSER_METRICS) as Hl;
      [ change PARSER_METRICS
          with ((((((([] ++ ["net_income"]) ++ ["complaint_volume"]) ++ ["total_assets"])
                    ++ ["total_deposits"]) ++ ["npa_ratio"]) ++ ["tier1_ratio"])
                 ++ ["complaint_narrative"])%list;
        repeat apply sublist_app; first [ apply optional_sublist | reflexivity ]
      | destruct l;
        [ split; [discriminate | unfold PARSER_METRICS, PARSER_DIMENSIONS; closed_sublist]
        | split; [discriminate | exact Hl] ] ]
  end.
Qed.

Lemma detect_dimensions_shape (query : string) :
  Parser._detect_dimensions query <> []
  /\ Parser._detect_dimensions query `sublist_of` PARSER_DIMENSIONS.
Proof.
  unfold Parser._detect_dimensions. rewrite !append_if_app.
  generalize (PyStr.lower query) as q. intros q.
  match goal with
  | |- context [match ?l with [] => _ | _ :: _ => _ end] =>
      assert (l `sublist_of` PARSER_DIMENSIONS) as Hl;
      [ change PARSER_DIMENSIONS
          with (((([] ++ ["state"]) ++ ["product"]) ++ ["bank_name"]) ++ ["quarter"])%list;
        repeat apply sublist_app; first [ apply optional_sublist | reflexivity ]
      | destruct l;
        [ split; [discriminate | unfold PARSER_METRICS, PARSER_DIMENSIONS; closed_sublist]
        | split; [discriminate | exact Hl] ] ]
  end.
Qed.

Lemma parser_metrics_registered :
  Forall (fun m => is_Some (Compiler.METRIC_SQL !! m)) PARSER_METRICS.
Proof. repeat constructor; vm_compute; eauto. Qed.

Lemma parser_metrics_nodup : NoDup PARSER_METRICS.
Proof. decide_closed. Qed.

Lemma parser_dimensions_nodup : NoDup PARSER_DIMENSIONS.
Proof. decide_closed. Qed.

Lemma dim_alias_identity (tbl d : string) : Compiler._dim_alias tbl d = d.
Proof.
  unfold Compiler._dim_alias.
  destruct (Compiler.overrides_of tbl !! d); [reflexivity|].
  destruct (Compiler.DIMENSION_COL !! d) as [v|] eqn:E; [|reflexivity].
  cbn. now apply dimension_col_identity.
Qed.

(** Property X5.  The metrics of a parsed plan are never empty, come from
    the parser's seven metrics in the parser's order, without repeats, and
    are all registered with the compiler.  Hence compiling a parsed plan
    never fails for want of a metric or for an unknown one: the outcome is
    that of the validation of the assembled text. *)
Theorem parsed_metrics_always_resolve (today : PyDate.date) (query : string) (p : plan) :
  Parser.parse_nl_to_dsl today query = Ok p ->
  exists m rest meta,
    metric_ids (plan_dsl p) = Some (m :: rest)
    /\ (m :: rest) `sublist_of` PARSER_METRICS
    /\ NoDup (m :: rest)
    /\ Forall (fun x => is_Some (Compiler.METRIC_SQL !! x)) (m :: rest)
    /\ Compiler.METRIC_SQL !! m = Some meta
    /\ forall (sqlglot_parse : string -> Compiler.parse_outcome)
              (constraints : option (gmap string Z)),
         Compiler.compile_dsl_to_sql sqlglot_parse (Compiler.Wrapped p) constraints
         = Compiler.validate sqlglot_parse
             (Compiler.assemble (plan_dsl p) constraints (Compiler.table meta)).
Proof.
  intros Hp. apply parse_fields in Hp as (tr & _ & ->).
  destruct (detect_metrics_shape query) as [Hne Hsub].
  destruct (Parser._detect_metrics query) as [|m rest] eqn:Hm; [contradiction|].
  assert (Forall (fun x => is_Some (Compiler.METRIC_SQL !! x)) (m :: rest)) as Hreg.
  { apply Forall_forall. intros x Hx.
    pose proof parser_metrics_registered as Hall. rewrite Forall_forall in Hall.
    apply Hall. eapply elem_of_sublist; eauto. }
  pose proof Hreg as Hhead. apply Forall_inv in Hhead. destruct Hhead as [meta Hmeta].
  exists m, rest, meta. cbn [plan_dsl metric_ids].
  split; [reflexivity|]. split; [exact Hsub|].
  split; [eapply sublist_NoDup; [apply parser_metrics_nodup | exact Hsub]|].
  split; [exact Hreg|]. split; [exact Hmeta|].
  intros sqlglot_parse constraints.
  unfold Compiler.compile_dsl_to_sql. cbn [Compiler.inner plan_dsl metric_ids].
  change (default [] (Some (m :: rest))) with (m :: rest).
  cbv iota. now rewrite Hmeta.
Qed.

Lemma parsed_metrics_always_resolve_witness :
  exists m rest,
    metric_ids (plan_dsl Samples.income_plan) = Some (m :: rest)
    /\ is_Some (Compiler.METRIC_SQL !! m).
Proof.
  destruct (parsed_metrics_always_resolve (Pipeline.today Samples.env)
              Samples.income_query Samples.income_plan)
    as (m & rest & meta & Hm & _ & _ & _ & Hmeta & _).
  - vm_compute. reflexivity.
  - exists m, rest. split; [exact Hm | eauto].
Defined.

(** Property X6.  The dimensions of a parsed plan are never empty, come from
    the parser's four dimensions in the parser's order, without repeats;
    the plan sorts by its first dimension, ascending, and the ORDER BY text
    compiled from it is that dimension followed by ASC, for every table. *)
Theorem parsed_sort_is_first_dimension (today : PyDate.date) (query : string) (p : plan) :
  Parser.parse_nl_to_dsl today query = Ok p ->
  exists d ds,
    dimensions (plan_dsl p) = Some (d :: ds)
    /\ (d :: ds) `sublist_of` PARSER_DIMENSIONS
    /\ NoDup (d :: ds)
    /\ sort (plan_dsl p) = Some [ {| s_field := d; s_direction := Some "asc" |} ]
    /\ forall tbl,
         Compiler.order_by_text tbl (default [] (sort (plan_dsl p))) = d +:+ " ASC".
Proof.
  intros Hp. apply parse_fields in Hp as (tr & _ & ->).
  destruct (detect_dimensions_shape query) as [Hne Hsub].
  unfold Parser.first_dimension.
  destruct (Parser._detect_dimensions query) as [|d ds] eqn:Hd; [contradiction|].
  exists d, ds. cbn [plan_dsl dimensions sort hd].
  split; [reflexivity|]. split; [exact Hsub|].
  split; [eapply sublist_NoDup; [apply parser_dimensions_nodup | exact Hsub]|].
  split; [reflexivity|].
  intros tbl. unfold Compiler.order_by_text, Compiler.order_part. cbn [from_option id map].
  cbn [s_field s_direction]. rewrite dim_alias_identity. reflexivity.
Qed.

Lemma parsed_sort_is_first_dimension_witness :
  exists d ds,
    dimensions (plan_dsl Samples.income_plan) = Some (d :: ds)
    /\ Compiler.order_by_text "dp_call_reports"
         (default [] (sort (plan_dsl Samples.income_plan))) = d +:+ " ASC".
Proof.
  destruct (parsed_sort_is_first_dimension (Pipeline.today Samples.env)
              Samples.income_query Samples.income_plan)
    as (d & ds & Hd & _ & _ & _ & Ho).
  - vm_compute. reflexivity.
  - exists d, ds. split; [exact Hd | apply Ho].
Defined.

(** ** The [since] pattern *)

Lemma substring_drop (n : nat) (s : string) :
  s = String.substring 0 n s +:+ Parser.drop n s.
Proof.
  revert s. induction n as [|n IH]; intros s.
  - destruct s; reflexivity.
  - destruct s as [|c s]; [reflexivity|].
    change (String c s = String c (String.substring 0 n s +:+ Parser.drop n s)).
    f_equal. apply IH.
Qed.


Lemma drop_app_length (a b : string) : Parser.drop (String.length a) (a +:+ b) = b.
Proof. induction a as [|c a IH]; [now destruct b | exact IH]. Qed.

Lemma search_since_cons (c : ascii) (q : string) :
  Parser.search_since (String c q) =
  match (if String.prefix "since " (String c q) then
           let ds := String.substring 0 4 (Parser.drop 6 (String c q)) in
           if (String.length ds =? 4)%nat && forallb PyStr.is_digit (list_ascii_of_string ds)
           then Some ds else None
         else None) with
  | Some ds => Some ds
  | None => Parser.search_since q
  end.
Proof. reflexivity. Qed.

Lemma search_since_sound (q y : string) :
  Parser.search_since q = Some y -> four_digits y /\ occurs ("since " +:+ y) q.
Proof.
  induction q as [|c q IH]; [cbn; discriminate|].
  rewrite search_since_cons.
  destruct (String.prefix "since " (String c q)) eqn:Hp; cbv beta iota zeta.
  - remember (String.substring 0 4 (Parser.drop 6 (String c q))) as ds eqn:Hds.
    destruct ((String.length ds =? 4)%nat && forallb PyStr.is_digit (list_ascii_of_string ds))
      eqn:Hd.
    + intros H. injection H as <-. apply andb_true_iff in Hd as [Hl Hd].
      apply Nat.eqb_eq in Hl. split; [split; assumption|].
      apply prefix_spec in Hp as [post Hq].
      exists EmptyString, (Parser.drop 4 post). rewrite Hq.
      assert (ds = String.substring 0 4 post) as -> by (now rewrite Hds, Hq).
      change ("since " +:+ post = "since " +:+ (String.substring 0 4 post +:+ Parser.drop 4 post)).
      f_equal. apply substring_drop.
    + intros H. apply IH in H as [Hy (pre & post & ->)].
      split; [exact Hy|]. exists (String c pre), post. reflexivity.
  - intros H. apply IH in H as [Hy (pre & post & ->)].
    split; [exact Hy|]. exists (String c pre), post. reflexivity.
Qed.





(** ** The literals written into the plan *)

Lemma all_chars_app (f : ascii -> bool) (a b : string) :
  all_chars f (a +:+ b) = all_chars f a && all_chars f b.
Proof.
  induction a as [|c a IH]; [reflexivity|].
  change (all_chars f (String c (a +:+ b)) = all_chars f (String c a) && all_chars f b).
  cbn [all_chars]. now rewrite IH, andb_assoc.
Qed.

Lemma all_chars_occurs (f : ascii -> bool) (w s : string) :
  occurs w s -> all_chars f s = true -> all_chars f w = true.
Proof.
  intros (pre & post & ->). rewrite !all_chars_app, !andb_true_iff. tauto.
Qed.

Lemma plain_has_no_quote (s : string) :
  all_chars literal_char s = true -> ~ occurs "'" s.
Proof.
  intros Hs Hocc. pose proof (all_chars_occurs _ _ _ Hocc Hs) as H.
  vm_compute in H. discriminate H.
Qed.

Lemma uint_plain (d : Decimal.uint) :
  all_chars literal_char (NilEmpty.string_of_uint d) = true.
Proof. induction d; cbn [NilEmpty.string_of_uint all_chars]; try rewrite IHd; reflexivity. Qed.

Lemma of_Z_plain (n : Z) : all_chars literal_char (PyStr.of_Z n) = true.
Proof.
  unfold PyStr.of_Z, NilZero.string_of_int, NilZero.string_of_uint.
  destruct n as [|p|p]; cbn [Z.to_int]; [reflexivity| |].
  - destruct (Pos.to_uint p) eqn:E; try reflexivity; rewrite <- E; apply uint_plain.
  - change (all_chars literal_char (String "-" ?s)) with (all_chars literal_char s).
    destruct (Pos.to_uint p) eqn:E; try reflexivity; rewrite <- E; apply uint_plain.
Qed.

Lemma pad_left_plain (width : nat) (s : string) :
  all_chars literal_char s = true ->
  all_chars literal_char (PyDate.pad_left width s) = true.
Proof.
  intros Hs. unfold PyDate.pad_left.
  induction (width - String.length s)%nat as [|k IH]; [exact Hs|].
  change (literal_char "0" && all_chars literal_char (Nat.iter k (String "0"%char) s) = true).
  now rewrite IH.
Qed.

Lemma isoformat_plain (d : PyDate.date) :
  all_chars literal_char (PyDate.isoformat d) = true.
Proof.
  unfold PyDate.isoformat, PyDate.zero_padded.
  rewrite !all_chars_app, !pad_left_plain by apply of_Z_plain. reflexivity.
Qed.

Lemma digits_plain (y : string) :
  forallb PyStr.is_digit (list_ascii_of_string y) = true ->
  all_chars literal_char y = true.
Proof.
  induction y as [|c y IH]; [reflexivity|]. cbn [list_ascii_of_string forallb all_chars].
  intros H. apply andb_true_iff in H as [Hc Hy].
  unfold literal_char at 1. now rewrite Hc, IH.
Qed.

Lemma detect_time_range_plain (today : PyDate.date) (query : string) (tr : time_range) :
  Parser._detect_time_range today query = Ok tr ->
  exists s e,
    tr_start tr = Some s /\ tr_end tr = Some e
    /\ all_chars literal_char s = true /\ all_chars literal_char e = true.
Proof.
  unfold Parser._detect_time_range.
  destruct (Parser.search_since (PyStr.lower query)) as [y|] eqn:Es.
  - intros H. injection H as <-. apply search_since_sound in Es as [[_ Hd] _].
    exists (y +:+ "-01-01"), (PyDate.isoformat today). cbn [tr_start tr_end].
    split; [reflexivity|]. split; [reflexivity|]. split; [|apply isoformat_plain].
    rewrite all_chars_app, digits_plain by exact Hd. reflexivity.
  - destruct (Parser.search_last_months (PyStr.lower query)) as [ds|].
    + destruct (PyDate.minus_days today (Parser.int_of_digits ds * 30)) as [start|e];
        cbn; [|discriminate].
      intros H. injection H as <-.
      exists (PyDate.isoformat start), (PyDate.isoformat today). cbn [tr_start tr_end].
      split; [reflexivity|]. split; [reflexivity|]. split; apply isoformat_plain.
    + intros H. injection H as <-.
      exists "2020-01-01", (PyDate.isoformat today). cbn [tr_start tr_end].
      split; [reflexivity|]. split; [reflexivity|].
      split; [reflexivity | apply isoformat_plain].
Qed.

(** Property X8.  The literals the parser writes into a plan, which the
    compiler places between single quotes, consist of digits, capital
    letters and dashes: the filter value and both bounds of the time range
    contain no single quote. *)
Theorem parsed_literals_carry_no_quote (today : PyDate.date) (query : string) (p : plan) :
  Parser.parse_nl_to_dsl today query = Ok p ->
  (forall f, In f (default [] (filters (plan_dsl p))) ->
     all_chars literal_char (f_value f) = true /\ ~ occurs "'" (f_value f))
  /\ exists tr s e,
       time_range_of (plan_dsl p) = Some tr
       /\ tr_start tr = Some s /\ tr_end tr = Some e
       /\ all_chars literal_char s = true /\ all_chars literal_char e = true
       /\ ~ occurs "'" s /\ ~ occurs "'" e.
Proof.
  intros Hp. apply parse_fields in Hp as (tr & Htr & ->). cbn [plan_dsl filters time_range_of].
  split.
  - intros f Hf. cbn in Hf. unfold Parser._detect_filters in Hf.
    destruct (Parser.search_state false query) as [st|] eqn:E; [|destruct Hf].
    destruct (existsb (String.eqb st) Parser.STATES); [|destruct Hf].
    destruct Hf as [<- | []]. cbn [f_value].
    apply search_state_found in E as (_ & a & b & -> & Ha & Hb).
    assert (all_chars literal_char (String a (String b EmptyString)) = true) as Hplain.
    { cbn [all_chars]. unfold literal_char. rewrite Ha, Hb. now rewrite !orb_true_r. }
    split; [exact Hplain | now apply plain_has_no_quote].
  - apply detect_time_range_plain in Htr as (s & e & Hs & He & Hps & Hpe).
    exists tr, s, e. repeat split; auto using plain_has_no_quote.
Qed.

Lemma parsed_literals_carry_no_quote_witness :
  exists tr s,
    time_range_of (plan_dsl Samples.income_plan) = Some tr
    /\ tr_start tr = Some s /\ ~ occurs "'" s.
Proof.
  destruct (parsed_literals_carry_no_quote (Pipeline.today Samples.env)
              Samples.income_query Samples.income_plan)
    as (_ & tr & s & e & Htr & Hs & _ & _ & _ & Hq & _).
  - vm_compute. reflexivity.
  - exists tr, s. auto.
Defined.

(** * Further properties: the compiler *)

Import Dsl Compiler.

Lemma overrides_only_quarter_of_complaints (tbl d e : string) :
  overrides_of tbl !! d = Some e -> tbl = "dp_complaints" /\ d = "quarter".
Proof.
  unfold overrides_of, DIMENSION_TABLE_OVERRIDE.
  destruct (decide (tbl = "dp_complaints")) as [-> | Hne].
  - rewrite lookup_singleton_eq. cbn.
    intros H. apply lookup_singleton_Some in H as [<- _]. auto.
  - rewrite lookup_singleton_ne by congruence. cbn. rewrite lookup_empty. discriminate.
Qed.

Lemma dim_expr_plain (tbl d : string) :
  ~ (tbl = "dp_complaints" /\ d = "quarter") ->
  _dim_expr tbl d = d /\ select_dim tbl d = d.
Proof.
  intros Hn. unfold select_dim, _dim_expr.
  destruct (overrides_of tbl !! d) as [e|] eqn:E.
  - apply overrides_only_quarter_of_complaints in E. contradiction.
  - destruct (DIMENSION_COL !! d) as [v|] eqn:Ev; cbn; [|auto].
    apply dimension_col_identity in Ev. now subst v.
Qed.

(** Property X9.  Dimension names reach the statement unchanged.  The
    ORDER BY text is made of the sort fields as given, each followed by its
    direction in capitals (ASC when absent); and unless the table is
    [dp_complaints] and [quarter] is among the dimensions, the GROUP BY text
    and the dimension part of the SELECT list are the dimension names as
    given, registered or not. *)
Theorem dimension_names_pass_through (tbl : string) (dims : list string)
        (keys : list sort_key) :
  order_by_text tbl keys
  = PyStr.join ", "
      (map (fun s => s_field s +:+ " " +:+ PyStr.upper (default "asc" (s_direction s))) keys)
  /\ (~ (tbl = "dp_complaints" /\ In "quarter" dims) ->
      group_by_text tbl dims = PyStr.join ", " dims
      /\ map (select_dim tbl) dims = dims).
Proof.
  split.
  - unfold order_by_text. f_equal. apply map_ext. intros s.
    unfold order_part. now rewrite dim_alias_identity.
  - intros Hn.
    assert (forall d, In d dims -> _dim_expr tbl d = d /\ select_dim tbl d = d) as Hd.
    { intros d Hin. apply dim_expr_plain. intros [-> ->]. apply Hn. auto. }
    unfold group_by_text. split; [f_equal|].
    + clear Hn. induction dims as [|d dims IH]; [reflexivity|]. cbn [map].
      rewrite (proj1 (Hd d (or_introl eq_refl))), IH; [reflexivity|].
      intros x Hx. apply Hd. now right.
    + clear Hn. induction dims as [|d dims IH]; [reflexivity|]. cbn [map].
      rewrite (proj2 (Hd d (or_introl eq_refl))), IH; [reflexivity|].
      intros x Hx. apply Hd. now right.
Qed.

Lemma dimension_names_pass_through_witness :
  group_by_text "dp_call_reports" ["quarter"; "bank_name"] = "quarter, bank_name".
Proof.
  destruct (dimension_names_pass_through "dp_call_reports" ["quarter"; "bank_name"] [])
    as [_ H].
  destruct H as [H _]; [intros [H _]; discriminate H | exact H].
Defined.

Lemma select_metrics_registered_only (ms : list string) :
  concat (map select_metric ms) = concat (map select_metric (List.filter registered ms)).
Proof.
  induction ms as [|m ms IH]; [reflexivity|]. cbn [map concat List.filter].
  unfold registered at 1, select_metric at 1.
  destruct (METRIC_SQL !! m) as [info|] eqn:E.
  - cbn [map concat]. unfold select_metric at 2. rewrite E. now rewrite IH.
  - exact IH.
Qed.

(** Property X10.  Only the first metric must be registered.  When it is,
    the metrics after it that are not registered are silently left out:
    compiling the plan gives the same outcome as compiling it with those
    metrics removed. *)
Theorem unregistered_metrics_are_dropped
  (sqlglot_parse : string -> parse_outcome) (d : dsl)
  (constraints : option (gmap string Z)) (m : string) (rest : list string) :
  metric_ids d = Some (m :: rest) ->
  registered m = true ->
  compile_dsl_to_sql sqlglot_parse (Bare d) constraints
  = compile_dsl_to_sql sqlglot_parse
      (Bare (with_metrics (m :: List.filter registered rest) d)) constraints.
Proof.
  intros Hm Hr. unfold compile_dsl_to_sql. cbn [inner with_metrics metric_ids].
  rewrite Hm. change (default [] (Some ?l)) with l. cbv iota.
  unfold registered in Hr. destruct (METRIC_SQL !! m) as [meta|] eqn:E; [|discriminate].
  f_equal. unfold assemble, select_parts, effective_min_group.
  cbn [metric_ids dimensions filters time_range_of sort limit privacy].
  rewrite Hm. change (default [] (Some ?l)) with l.
  rewrite (select_metrics_registered_only (m :: rest)). cbn [List.filter].
  unfold registered at 1. rewrite E. reflexivity.
Qed.

Lemma unregistered_metrics_are_dropped_witness :
  compile_dsl_to_sql Samples.accept_all
    (Bare (Samples.plan_with ["net_income"; "revenue"; "total_assets"] ["quarter"])) None
  = Ok "SELECT quarter, SUM(net_income) AS total_net_income, SUM(assets) AS total_assets FROM dp_call_reports GROUP BY quarter LIMIT 200".
Proof.
  rewrite (unregistered_metrics_are_dropped Samples.accept_all
             (Samples.plan_with ["net_income"; "revenue"; "total_assets"] ["quarter"])
             None "net_income" ["revenue"; "total_assets"]);
    [vm_compute; reflexivity | reflexivity | reflexivity].
Defined.

(** * Further properties: the metadata search *)

Import Catalog.

Lemma append_assoc (a b c : string) : (a +:+ b) +:+ c = a +:+ b +:+ c.
Proof.
  induction a as [|x a IH]; [reflexivity|].
  change (String x ((a +:+ b) +:+ c) = String x (a +:+ b +:+ c)). now rewrite IH.
Qed.

Lemma occurs_cons (t s : string) (c : ascii) : occurs t s -> occurs t (String c s).
Proof. intros (pre & post & ->). exists (String c pre), post. reflexivity. Qed.

Lemma occurs_app_r (t a s : string) : occurs t s -> occurs t (a +:+ s).
Proof.
  intros H. induction a as [|c a IH]; [exact H|]. now apply (occurs_cons t (a +:+ s) c).
Qed.

Lemma occurs_app_l (a s : string) : occurs a (a +:+ s).
Proof. exists EmptyString, s. reflexivity. Qed.

(** The words [split] returns are not empty and occur in the text. *)
Lemma split_aux_tokens (cur s t : string) :
  In t (PyStr.split_aux cur s) -> t <> EmptyString /\ occurs t (cur +:+ s).
Proof.
  revert cur. induction s as [|c s IH]; intros cur; cbn [PyStr.split_aux].
  - destruct (String.eqb cur EmptyString) eqn:E; [intros []|].
    intros [<- | []]. apply String.eqb_neq in E. split; [exact E | apply occurs_app_l].
  - destruct (PyStr.is_space c).
    + destruct (String.eqb cur EmptyString) eqn:E.
      * apply String.eqb_eq in E. subst cur. intros H. apply IH in H as [Hne Ho].
        split; [exact Hne|]. now apply (occurs_cons t s c).
      * apply String.eqb_neq in E. intros [<- | H].
        -- split; [exact E | apply occurs_app_l].
        -- apply IH in H as [Hne Ho]. split; [exact Hne|].
           apply occurs_app_r. now apply (occurs_cons t s c).
    + intros H. apply IH in H as [Hne Ho]. split; [exact Hne|].
      now rewrite append_assoc in Ho.
Qed.

Lemma is_space_lower (c : ascii) : PyStr.is_space (PyStr.lower_char c) = PyStr.is_space c.
Proof.
  destruct c as [b0 b1 b2 b3 b4 b5 b6 b7];
    destruct b0, b1, b2, b3, b4, b5, b6, b7; reflexivity.
Qed.

Lemma split_blank (s : string) :
  all_chars PyStr.is_space s = true -> PyStr.split s = [].
Proof.
  unfold PyStr.split. induction s as [|c s IH]; [reflexivity|].
  cbn [all_chars PyStr.split_aux]. intros H. apply andb_true_iff in H as [Hc Hs].
  rewrite Hc. cbn. exact (IH Hs).
Qed.

Lemma lower_blank (s : string) :
  all_chars PyStr.is_space (PyStr.lower s) = all_chars PyStr.is_space s.
Proof.
  unfold PyStr.lower. induction s as [|c s IH]; [reflexivity|].
  cbn [PyStr.map_chars all_chars]. now rewrite is_space_lower, IH.
Qed.

Lemma filter_none {A : Type} (l : list A) : List.filter (fun _ => false) l = [].
Proof. induction l; [reflexivity | exact IHl]. Qed.

(** Property X11.  A query made of white space only (the empty query
    included) matches nothing, whatever the catalog. *)
Theorem blank_query_finds_nothing (query : string) (cat : catalog) :
  all_chars PyStr.is_space query = true ->
  metadata_search query cat = [].
Proof.
  intros Hq. unfold metadata_search.
  rewrite split_blank by (now rewrite lower_blank).
  unfold hits. cbn [existsb]. now rewrite !filter_none.
Qed.

Lemma blank_query_finds_nothing_witness :
  metadata_search "   " Samples.catalog = [].
Proof. apply blank_query_finds_nothing. reflexivity. Defined.

Lemma hits_spec (tokens : list string) (text : string) :
  hits tokens text = true <-> exists t, In t tokens /\ occurs t text.
Proof.
  unfold hits. rewrite existsb_exists.
  split; intros (t & Hin & H); exists t; (split; [exact Hin|]); now apply contains_spec.
Qed.

Lemma filter_sublist {A : Type} (f : A -> bool) (l : list A) :
  List.filter f l `sublist_of` l.
Proof.
  induction l as [|a l IH]; [constructor|]. cbn.
  destruct (f a); [now apply sublist_skip | now apply sublist_cons].
Qed.

(** Property X12.  [metadata_search] returns data products first, then
    metrics, each group in catalog order and without additions.  An entry is
    returned exactly when some word of the lower-cased query (a maximal run
    of characters other than white space) occurs in the entry's lower-cased
    text. *)
Theorem metadata_search_hits (query : string) (cat : catalog) :
  (exists ps ms,
     metadata_search query cat = (map Product ps ++ map Metric ms)%list
     /\ ps `sublist_of` default [] (data_products cat)
     /\ ms `sublist_of` default [] (metrics cat))
  /\ forall e,
       In e (metadata_search query cat) <->
       exists t,
         In t (PyStr.split (PyStr.lower query))
         /\ t <> EmptyString /\ occurs t (PyStr.lower query)
         /\ match e with
            | Product dp =>
                In dp (default [] (data_products cat)) /\ occurs t (product_text dp)
            | Metric m =>
                In m (default [] (metrics cat)) /\ occurs t (metric_text m)
            end.
Proof.
  unfold metadata_search. split.
  - eexists _, _. split; [reflexivity|]. split; apply filter_sublist.
  - intros e. rewrite in_app_iff, !in_map_iff.
    split.
    + intros [(dp & <- & Hin) | (m & <- & Hin)];
        apply filter_In in Hin as [Hin Hh]; apply hits_spec in Hh as (t & Ht & Ho);
        exists t; destruct (split_aux_tokens _ _ _ Ht) as [Hne Hocc]; auto.
    + intros (t & Ht & _ & _ & He). destruct e as [dp | m]; destruct He as [Hin Ho].
      * left. exists dp. split; [reflexivity|]. apply filter_In. split; [exact Hin|].
        apply hits_spec. eauto.
      * right. exists m. split; [reflexivity|]. apply filter_In. split; [exact Hin|].
        apply hits_spec. eauto.
Qed.

(** * Further properties: the pipeline *)

Import Dsl Rows Pipeline.

(** ** Quality status and missing names *)

Lemma quality_loop_unnamed (ids : list string) (dps : list Catalog.data_product) :
  Exists (fun dp => Catalog.dp_name dp = None) dps ->
  quality_loop ids dps = Raise (KeyError "name").
Proof.
  induction dps as [|dp dps IH]; intros H; [inversion H|].
  cbn [quality_loop]. destruct (Catalog.dp_name dp) as [n|] eqn:Hn; [|reflexivity].
  inversion H as [? ? Hd | ? ? Ht]; subst; [congruence|].
  now rewrite (IH Ht).
Qed.

Lemma quality_loop_length (ids : list string) (dps : list Catalog.data_product)
      (recs : list quality_record) :
  quality_loop ids dps = Ok recs -> (length recs <= length dps)%nat.
Proof.
  revert recs. induction dps as [|dp dps IH]; intros recs; cbn [quality_loop].
  - intros H. injection H as <-. reflexivity.
  - destruct (Catalog.dp_name dp); [|discriminate].
    destruct (quality_loop ids dps) as [rs|]; cbn; [|discriminate].
    specialize (IH rs eq_refl).
    destruct (existsb _ ids); intros H; injection H as <-; cbn; lia.
Qed.

(** Property X13.  [quality_status] returns, with at most one record per
    data product, whenever every data product of the catalog has a name;
    when one has none it raises [KeyError] for the key [name], whatever the
    datasets asked for. *)
Theorem quality_status_needs_every_name (ids : list string) (cat : Catalog.catalog) :
  let dps := default [] (Catalog.data_products cat) in
  (Forall (fun dp => is_Some (Catalog.dp_name dp)) dps ->
   exists recs, quality_status ids cat = Ok recs /\ (length recs <= length dps)%nat)
  /\ (Exists (fun dp => Catalog.dp_name dp = None) dps ->
      quality_status ids cat = Raise (KeyError "name")).
Proof.
  intros dps. unfold quality_status. fold dps. split.
  - intros H. destruct (quality_loop_total ids dps H) as [recs Hr].
    exists recs. split; [exact Hr | eapply quality_loop_length; eauto].
  - apply quality_loop_unnamed.
Qed.

Lemma quality_status_needs_every_name_witness :
  quality_status ["dp_complaints"] Samples.unnamed_catalog = Raise (KeyError "name")
  /\ exists recs, quality_status ["dp_complaints"] Samples.catalog = Ok recs.
Proof.
  split.
  - pose proof (quality_status_needs_every_name ["dp_complaints"] Samples.unnamed_catalog)
      as H.
    cbv zeta in H. destruct H as [_ H]. apply H. constructor. reflexivity.
  - pose proof (quality_status_needs_every_name ["dp_complaints"] Samples.catalog) as H.
    cbv zeta in H. destruct H as [H _].
    destruct H as (recs & Hr & _); [repeat constructor; eauto | eauto].
Defined.

(** ** Records of the table *)

Lemma record_of_cons (c : string) (columns : list string) (x : cell) (row : list cell)
      (k : string) :
  record_of (c :: columns) (x :: row) !! k =
  match record_of columns row !! k with
  | Some v => Some v
  | None => if decide (k = c) then Some x else None
  end.
Proof.
  unfold record_of. cbn [zip zip_with]. rewrite reverse_cons, list_to_map_app.
  rewrite lookup_union.
  destruct (list_to_map (reverse (zip_with pair columns row)) !! k) as [v|];
    cbn [list_to_map foldr].
  - now destruct (_ !! k).
  - rewrite (left_id None union). cbn.
    destruct (decide (k = c)) as [-> | Hne].
    + now rewrite lookup_insert_eq.
    + now rewrite lookup_insert_ne, lookup_empty by congruence.
Qed.

Lemma record_of_absent (columns : list string) (row : list cell) (k : string) :
  ~ In k columns -> record_of columns row !! k = None.
Proof.
  revert row. induction columns as [|c columns IH]; intros row Hk.
  - unfold record_of. cbn. apply lookup_empty.
  - destruct row as [|x row]; [unfold record_of; cbn; apply lookup_empty|].
    rewrite record_of_cons, IH by (intros H; apply Hk; now right).
    destruct (decide (k = c)) as [-> | _]; [|reflexivity].
    exfalso. apply Hk. now left.
Qed.

(** Property X14.  With distinct column names, the record built for a row
    maps each column name to the cell at the column's position (no entry
    when the row is shorter), and has no entry for any other key. *)
Theorem record_maps_column_to_cell (columns : list string) (row : list cell) :
  NoDup columns ->
  (forall i c, columns !! i = Some c -> record_of columns row !! c = row !! i)
  /\ (forall c, ~ In c columns -> record_of columns row !! c = None).
Proof.
  intros Hnd. split; [|intros c; apply record_of_absent].
  revert row. induction Hnd as [|c0 columns Hc0 Hnd IH]; intros row i c Hi.
  - rewrite lookup_nil in Hi. discriminate.
  - destruct row as [|x row].
    + unfold record_of. cbn. rewrite lookup_empty. symmetry. apply lookup_nil.
    + rewrite record_of_cons. destruct i as [|i]; cbn in Hi |- *.
      * injection Hi as <-. rewrite record_of_absent.
        -- now destruct (decide (c0 = c0)).
        -- now rewrite <- list_elem_of_In.
      * rewrite (IH row i c Hi). destruct (row !! i); [reflexivity|].
        destruct (decide (c = c0)) as [-> | _]; [|reflexivity].
        exfalso. apply Hc0. eapply list_elem_of_lookup_2; eauto.
Qed.

Lemma record_maps_column_to_cell_witness :
  record_of Samples.six_columns [CStr "2021-Q2"; CInt 90] !! "total_net_income"
  = Some (CInt 90).
Proof.
  destruct (record_maps_column_to_cell Samples.six_columns [CStr "2021-Q2"; CInt 90])
    as [H _].
  - repeat constructor; rewrite ?elem_of_cons, ?elem_of_nil; intuition discriminate.
  - apply (H 1%nat "total_net_income"). reflexivity.
Defined.

(** ** Who is denied *)

Lemma needs_narrative_high (query : string) :
  existsb Policy.is_high (Parser._needs_narrative query)
  = PyStr.contains "narrative" (PyStr.lower query).
Proof.
  unfold Parser._needs_narrative.
  destruct (PyStr.contains "narrative" (PyStr.lower query)); reflexivity.
Qed.

Lemma parsed_denied_iff (today : PyDate.date) (query : string) (p : plan) (who : string) :
  Parser.parse_nl_to_dsl today query = Ok p ->
  (Policy.decision (Policy.policy_eval (policy_request p who) None) = "DENY"
   <-> occurs "narrative" (PyStr.lower query)
       /\ who <> "compliance_officer" /\ who <> "admin").
Proof.
  intros Hp. pose proof (parsed_request_not_below_minimum _ _ _ who Hp) as Hm.
  destruct (parse_inversion _ _ _ Hp) as (Hf & _ & _).
  default_rules. rewrite Hm.
  assert (Policy.match_narrative (policy_request p who)
          = PyStr.contains "narrative" (PyStr.lower query)) as ->.
  { unfold Policy.match_narrative, policy_request. cbn. rewrite Hf. cbn.
    apply needs_narrative_high. }
  change (Policy.user_role (policy_request p who)) with who.
  rewrite <- contains_spec.
  destruct (PyStr.contains "narrative" (PyStr.lower query)).
  - destruct (Policy.exempt Policy.deny_narrative_fields who) eqn:E.
    + apply exempt_narrative in E. cbn. split; [discriminate|]. intros (_ & H1 & H2).
      destruct E; contradiction.
    + cbn. split; [intros _|reflexivity]. split; [reflexivity|].
      split; intros ->; discriminate E.
  - cbn. split; [discriminate|]. intros [H _]. discriminate H.
Qed.





(** ** The ways a run ends *)

Lemma error_response_spec (p : plan) (msg sql : string) :
  dom (error_response p msg sql) = {[ "status"; "error"; "sql"; "dsl" ]}
  /\ error_response p msg sql !! "status" = Some (VStr "error")
  /\ error_response p msg sql !! "error" = Some (VStr msg)
  /\ error_response p msg sql !! "sql" = Some (VStr sql)
  /\ error_response p msg sql !! "dsl" = Some (VDsl (plan_dsl p)).
Proof.
  split.
  { unfold error_response. rewrite dom_list_to_map_L. cbn [fmap list_fmap fst].
    set_solver. }
  repeat split; vm_compute; reflexivity.
Qed.

Lemma optional_other (c : bool) (m x : string) :
  m <> x -> Forall (fun y => y <> x) (if c then [m] else []).
Proof. intros H. destruct c; repeat constructor. exact H. Qed.

Lemma narrative_metric_needs_keyword (query : string) :
  In "complaint_narrative" (Parser._detect_metrics query) ->
  PyStr.contains "narrative" (PyStr.lower query) = true.
Proof.
  unfold Parser._detect_metrics. rewrite !append_if_app.
  destruct (PyStr.contains "narrative" (PyStr.lower query)); [reflexivity|].
  rewrite app_nil_r.
  match goal with
  | |- In _ (match ?l with [] => _ | _ :: _ => _ end) -> _ =>
      assert (Forall (fun m => m <> "complaint_narrative") l) as Hl;
      [ rewrite !Forall_app; repeat split;
        first [apply optional_other; discriminate | constructor]
      | destruct l as [|m0 l0] ]
  end.
  - intros [H | []]. discriminate H.
  - intros H. rewrite Forall_forall in Hl. apply list_elem_of_In, Hl in H.
    congruence.
Qed.

Section RunOutcomes.

Variable sqlglot_parse : string -> Compiler.parse_outcome.
Variable sha256_hexdigest : string -> string.
Variable json_dumps : gmap string Z -> string.


Lemma postprocess_unnamed
      (env : environment) (cat : Catalog.catalog) (p : plan)
      (pr : Policy.decision_record) (sql : string) (used columns : list string)
      (rows : list (list cell)) :
  Exists (fun dp => Catalog.dp_name dp = None) (default [] (Catalog.data_products cat)) ->
  postprocess sha256_hexdigest json_dumps env cat p pr sql used columns rows
  = Raise (KeyError "name").
Proof.
  intros H. unfold postprocess, quality_status.
  rewrite (quality_loop_unnamed used _ H). reflexivity.
Qed.

Variable env : environment.
Variable query : string.
Variable con : string -> exec_outcome.
Variable who : string.
Variable cat : Catalog.catalog.

(** The four ways [run_agent] ends once the query is parsed. *)
Lemma run_agent_cases (p : plan) :
  Parser.parse_nl_to_dsl (today env) query = Ok p ->
  let policy_result := Policy.policy_eval (policy_request p who) None in
  (Policy.decision policy_result = "DENY"
   /\ run_agent sqlglot_parse sha256_hexdigest json_dumps env query con who cat = {| response := Ok (denied_response p policy_result); executed := [] |})
  \/ (policy_result = Policy.allow_all
      /\ ((exists e,
             Compiler.compile_dsl_to_sql sqlglot_parse (Compiler.Wrapped p) (Some ∅) = Raise e
             /\ run_agent sqlglot_parse sha256_hexdigest json_dumps env query con who cat = {| response := Raise e; executed := [] |})
          \/ exists sql,
               Compiler.compile_dsl_to_sql sqlglot_parse (Compiler.Wrapped p) (Some ∅) = Ok sql
               /\ ((exists msg,
                      con sql = ExecError msg
                      /\ run_agent sqlglot_parse sha256_hexdigest json_dumps env query con who cat = {| response := Ok (error_response p msg sql);
                                      executed := [sql] |})
                   \/ exists columns rows,
                        con sql = Fetched columns rows
                        /\ run_agent sqlglot_parse sha256_hexdigest json_dumps env query con who cat =
                           {| response :=
                                postprocess sha256_hexdigest json_dumps env cat p
                                  Policy.allow_all sql
                                  (datasets_of (Catalog.metadata_search query cat))
                                  columns rows;
                              executed := [sql] |}))).
Proof.
  intros Hp policy_result. unfold run_agent. rewrite Hp. fold policy_result.
  destruct (String.eqb (Policy.decision policy_result) "DENY") eqn:Hd.
  - left. apply String.eqb_eq in Hd. auto.
  - right. apply String.eqb_neq in Hd.
    assert (policy_result = Policy.allow_all) as Ha.
    { destruct (parsed_decision _ _ _ who Hp) as [H | H]; [exact H | contradiction]. }
    split; [exact Ha|]. rewrite Ha.
    change (Policy.constraints Policy.allow_all) with (∅ : gmap string Z).
    destruct (Compiler.compile_dsl_to_sql sqlglot_parse (Compiler.Wrapped p) (Some ∅))
      as [sql|e]; [right | left; eauto].
    exists sql. split; [reflexivity|].
    destruct (con sql) as [columns rows | msg]; [right | left]; eauto.
Qed.

(** What a run that executed the statement [sql] did before. *)
Lemma executed_inversion (sql : string) :
  In sql (executed (run_agent sqlglot_parse sha256_hexdigest json_dumps env query con
                              who cat)) ->
  exists p,
    Parser.parse_nl_to_dsl (today env) query = Ok p
    /\ Policy.policy_eval (policy_request p who) None = Policy.allow_all
    /\ Compiler.compile_dsl_to_sql sqlglot_parse (Compiler.Wrapped p) (Some ∅) = Ok sql
    /\ executed (run_agent sqlglot_parse sha256_hexdigest json_dumps env query con
                           who cat) = [sql]
    /\ response (run_agent sqlglot_parse sha256_hexdigest json_dumps env query con
                           who cat)
       = match con sql with
         | ExecError msg => Ok (error_response p msg sql)
         | Fetched columns rows =>
             postprocess sha256_hexdigest json_dumps env cat p Policy.allow_all sql
                         (datasets_of (Catalog.metadata_search query cat)) columns rows
         end.
Proof.
  destruct (Parser.parse_nl_to_dsl (today env) query) as [p|e] eqn:Hp.
  2: { unfold run_agent. rewrite Hp. intros []. }
  destruct (run_agent_cases p Hp)
    as [[_ ->] | [Ha [(e & _ & ->) | (s & Hc & [(msg & Hcon & ->)
                                                | (columns & rows & Hcon & ->)])]]];
    cbn [executed response]; try (intros []; fail).
  - intros [<- | []]. exists p. rewrite Hcon. auto.
  - intros [<- | []]. exists p. rewrite Hcon. auto.
Qed.


(** Property X16.  Whatever [run_agent] passes to the connection is the only
    statement of the run; it was compiled from the parsed plan with empty
    constraints, under decision ALLOW, and the validator parsed it to at
    least one statement.  For a role other than [compliance_officer] and
    [admin] the plan behind it does not hold the metric
    [complaint_narrative]. *)
Theorem only_validated_sql_is_executed (sql : string) :
  In sql (executed (run_agent sqlglot_parse sha256_hexdigest json_dumps env query con
                              who cat)) ->
  executed (run_agent sqlglot_parse sha256_hexdigest json_dumps env query con who cat)
    = [sql]
  /\ exists p n,
       Parser.parse_nl_to_dsl (today env) query = Ok p
       /\ Policy.decision (Policy.policy_eval (policy_request p who) None) = "ALLOW"
       /\ Compiler.compile_dsl_to_sql sqlglot_parse (Compiler.Wrapped p) (Some ∅) = Ok sql
       /\ sqlglot_parse sql = Compiler.Parsed (S n)
       /\ (who <> "compliance_officer" -> who <> "admin" ->
           ~ In "complaint_narrative" (default [] (metric_ids (plan_dsl p)))).
Proof.
  intros Hin. destruct (executed_inversion sql Hin) as (p & Hp & Ha & Hc & He & _).
  split; [exact He|].
  destruct (compile_inversion _ _ _ _ Hc) as (m0 & rest & meta & _ & _ & _ & n & Hn).
  exists p, n. split; [exact Hp|]. split; [rewrite Ha; reflexivity|].
  split; [exact Hc|]. split; [exact Hn|].
  intros H1 H2 Hm.
  assert (Policy.decision (Policy.policy_eval (policy_request p who) None) <> "DENY")
    as Hnd by (rewrite Ha; discriminate).
  apply Hnd. apply (parsed_denied_iff _ _ _ who Hp). split; [|auto].
  apply contains_spec.
  pose proof Hp as Hf. apply parse_fields in Hf as (tr & _ & ->).
  cbn in Hm. apply narrative_metric_needs_keyword, Hm.
Qed.

(** Property X17.  When the connection fails on the statement, [run_agent]
    raises nothing: it returns a dictionary with exactly the keys status,
    error, sql and dsl, holding [error], the text of the exception, the
    statement and the parsed plan. *)
Theorem database_failure_is_reported (sql msg : string) :
  In sql (executed (run_agent sqlglot_parse sha256_hexdigest json_dumps env query con
                              who cat)) ->
  con sql = ExecError msg ->
  exists p m,
    Parser.parse_nl_to_dsl (today env) query = Ok p
    /\ response (run_agent sqlglot_parse sha256_hexdigest json_dumps env query con who cat)
       = Ok m
    /\ dom m = {[ "status"; "error"; "sql"; "dsl" ]}
    /\ m !! "status" = Some (VStr "error")
    /\ m !! "error" = Some (VStr msg)
    /\ m !! "sql" = Some (VStr sql)
    /\ m !! "dsl" = Some (VDsl (plan_dsl p)).
Proof.
  intros Hin Hcon. destruct (executed_inversion sql Hin) as (p & Hp & _ & _ & _ & Hr).
  rewrite Hcon in Hr. exists p, (error_response p msg sql).
  split; [exact Hp|]. split; [exact Hr|]. apply error_response_spec.
Qed.

(** Property X18.  When the catalog holds a data product without a name,
    every run whose statement the connection answers raises [KeyError] for
    the key [name], after the statement was executed, whatever the query
    and the rows. *)
Theorem unnamed_data_product_fails_after_execution
        (sql : string) (columns : list string) (rows : list (list cell)) :
  In sql (executed (run_agent sqlglot_parse sha256_hexdigest json_dumps env query con
                              who cat)) ->
  con sql = Fetched columns rows ->
  Exists (fun dp => Catalog.dp_name dp = None) (default [] (Catalog.data_products cat)) ->
  response (run_agent sqlglot_parse sha256_hexdigest json_dumps env query con who cat)
  = Raise (KeyError "name").
Proof.
  intros Hin Hcon Hdp. destruct (executed_inversion sql Hin) as (p & _ & _ & _ & _ & Hr).
  rewrite Hcon in Hr. rewrite Hr. apply postprocess_unnamed, Hdp.
Qed.


End RunOutcomes.


Lemma only_validated_sql_is_executed_witness :
  executed Samples.income_run = [Samples.statement_of Samples.income_run]
  /\ exists n, Samples.accept_all (Samples.statement_of Samples.income_run)
               = Compiler.Parsed (S n).
Proof.
  destruct (only_validated_sql_is_executed
              Samples.accept_all Samples.digest Samples.dumps Samples.env
              Samples.income_query Samples.connection "analyst" Samples.catalog
              (Samples.statement_of Samples.income_run))
    as (He & p & n & _ & _ & _ & Hn & _).
  - vm_compute. left. reflexivity.
  - split; [exact He|]. exists n. exact Hn.
Defined.

Lemma database_failure_is_reported_witness :
  exists m,
    response Samples.broken_run = Ok m
    /\ m !! "status" = Some (VStr "error")
    /\ m !! "error" = Some (VStr "Binder Error: column not found").
Proof.
  destruct (database_failure_is_reported
              Samples.accept_all Samples.digest Samples.dumps Samples.env
              Samples.income_query Samples.broken_connection "analyst" Samples.catalog
              (Samples.statement_of Samples.broken_run)
              "Binder Error: column not found")
    as (p & m & _ & Hr & _ & Hs & He & _).
  - vm_compute. left. reflexivity.
  - reflexivity.
  - exists m. auto.
Defined.

Lemma unnamed_data_product_fails_after_execution_witness :
  response Samples.unnamed_run = Raise (KeyError "name")
  /\ executed Samples.unnamed_run = [Samples.statement_of Samples.unnamed_run].
Proof.
  split; [|vm_compute; reflexivity].
  apply (unnamed_data_product_fails_after_execution
           Samples.accept_all Samples.digest Samples.dumps Samples.env
           Samples.income_query Samples.connection "analyst" Samples.unnamed_catalog
           (Samples.statement_of Samples.unnamed_run)
           Samples.six_columns Samples.six_rows).
  - vm_compute. left. reflexivity.
  - reflexivity.
  - constructor. reflexivity.
Defined.


(** ** The statement a parsed plan compiles to *)

Lemma isoformat_nonempty (d : PyDate.date) : PyStr.truthy (PyDate.isoformat d) = true.
Proof.
  apply truthy_spec. unfold PyDate.isoformat. intros H.
  apply app_empty_inv in H as [_ H]. discriminate H.
Qed.

Lemma detect_time_range_bounds (today : PyDate.date) (query : string) (tr : time_range) :
  Parser._detect_time_range today query = Ok tr ->
  exists start,
    tr_start tr = Some start /\ PyStr.truthy start = true
    /\ tr_end tr = Some (PyDate.isoformat today).
Proof.
  unfold Parser._detect_time_range.
  destruct (Parser.search_since (PyStr.lower query)) as [y|].
  - intros H. injection H as <-. eexists. split; [reflexivity|]. split; [|reflexivity].
    apply truthy_spec. intros H. apply app_empty_inv in H as [_ H]. discriminate H.
  - destruct (Parser.search_last_months (PyStr.lower query)) as [ds|].
    + destruct (PyDate.minus_days today (Parser.int_of_digits ds * 30)) as [start|e];
        cbn [mbind result_bind]; [|discriminate].
      intros H. injection H as <-. eexists. split; [reflexivity|].
      split; [apply isoformat_nonempty | reflexivity].
    + intros H. injection H as <-. eexists. split; [reflexivity|].
      split; reflexivity.
Qed.

Lemma metric_tables (m : string) (meta : metric_info) :
  METRIC_SQL !! m = Some meta ->
  table meta = "dp_complaints" \/ table meta = "dp_call_reports".
Proof.
  unfold METRIC_SQL. intros H. apply elem_of_list_to_map_2 in H.
  repeat (apply elem_of_cons in H as [H | H]; [injection H as _ ->; cbn; auto|]).
  apply elem_of_nil in H. contradiction.
Qed.

Lemma parsed_dimensions_grouped (query : string) (tbl : string) :
  PyStr.truthy (group_by_text tbl (Parser._detect_dimensions query)) = true.
Proof.
  apply grouped_spec. destruct (detect_dimensions_shape query) as [Hne Hsub].
  split; [exact Hne|]. intros H. rewrite H in Hsub.
  apply sublist_cons_l in Hsub as (k1 & k2 & Hk & _).
  assert (EmptyString ∈ PARSER_DIMENSIONS) as Hin by (rewrite Hk; set_solver).
  unfold PARSER_DIMENSIONS in Hin.
  repeat (apply elem_of_cons in Hin as [Hin | Hin]; [discriminate Hin|]).
  apply elem_of_nil in Hin. contradiction.
Qed.

Lemma parsed_order_by (query : string) (tbl : string) :
  order_by_text tbl [ {| s_field := Parser.first_dimension query;
                         s_direction := Some "asc" |} ]
  = Parser.first_dimension query +:+ " ASC".
Proof.
  unfold order_by_text, order_part. cbn [map s_field s_direction].
  rewrite dim_alias_identity. reflexivity.
Qed.

Lemma ascending_nonempty (a : string) : PyStr.truthy (a +:+ " ASC") = true.
Proof.
  apply truthy_spec. intros H. apply app_empty_inv in H as [_ H]. discriminate H.
Qed.

(** Property X20.  Every statement compiled from a parsed plan with empty
    constraints has one shape: the SELECT list, FROM one of the two tables,
    a WHERE clause that bounds the table's date column from below by the
    start of the time range and from above by today, followed by the state
    filter if any, a non-empty GROUP BY, a HAVING clause asking for groups of at least 10
    exactly when the table is [dp_complaints], ORDER BY the first dimension
    ascending, and LIMIT 200. *)
Theorem parsed_plans_compile_to_one_shape
        (sqlglot_parse : string -> parse_outcome)
        (today : PyDate.date) (query : string) (p : plan) (sql : string) :
  Parser.parse_nl_to_dsl today query = Ok p ->
  compile_dsl_to_sql sqlglot_parse (Wrapped p) (Some ∅) = Ok sql ->
  exists tbl start,
    (tbl = "dp_complaints" \/ tbl = "dp_call_reports")
    /\ start <> EmptyString
    /\ group_by_text tbl (Parser._detect_dimensions query) <> EmptyString
    /\ sql =
       "SELECT "
         +:+ PyStr.join ", " (select_parts tbl (Parser._detect_dimensions query)
                                           (Parser._detect_metrics query))
         +:+ " FROM " +:+ tbl
         +:+ " WHERE "
         +:+ PyStr.join " AND "
               ((date_col tbl +:+ " >= '" +:+ start +:+ "'")
                :: (date_col tbl +:+ " <= '" +:+ PyDate.isoformat today +:+ "'")
                :: map filter_part (Parser._detect_filters query))
         +:+ " GROUP BY " +:+ group_by_text tbl (Parser._detect_dimensions query)
         +:+ (if String.eqb tbl "dp_complaints" then " HAVING COUNT(*) >= 10"
              else EmptyString)
         +:+ " ORDER BY " +:+ Parser.first_dimension query +:+ " ASC"
         +:+ " LIMIT 200".
Proof.
  intros Hp Hc.
  destruct (compile_inversion _ _ _ _ Hc) as (m & rest & meta & _ & Hmeta & -> & _).
  apply parse_fields in Hp as (tr & Htr & ->).
  destruct (detect_time_range_bounds _ _ _ Htr) as (start & Hs & Hst & He).
  exists (table meta), start.
  split; [eapply metric_tables; exact Hmeta|].
  split; [apply truthy_spec, Hst|].
  pose proof (parsed_dimensions_grouped query (table meta)) as Hg.
  split; [apply truthy_spec, Hg|].
  unfold assemble.
  cbn [inner plan_dsl metric_ids dimensions filters time_range_of sort limit privacy].
  change (default [] (Some ?l)) with l.
  change (default 200 (Some 200)) with 200.
  unfold where_parts. cbn [mbind option_bind]. rewrite Hs, He.
  unfold bound_part. rewrite Hst, isoformat_nonempty.
  cbn [app where_clause].
  unfold clause at 1. rewrite Hg.
  rewrite parsed_order_by. unfold clause at 2. rewrite ascending_nonempty.
  unfold having_text, needs_having. rewrite Hg.
  assert (effective_min_group
            {| intent := Some (Parser._detect_intent query);
               metric_ids := Some (Parser._detect_metrics query);
               dimensions := Some (Parser._detect_dimensions query);
               filters := Some (Parser._detect_filters query);
               time_range_of := Some tr;
               sort := Some [ {| s_field := Parser.first_dimension query;
                                 s_direction := Some "asc" |} ];
               limit := Some 200;
               privacy := Some {| Policy.min_group_size := Some 10 |};
               export_of := Some (Parser._detect_export query) |} (Some ∅) = 10) as ->
      by (rewrite effective_min_group_spec, lookup_empty; reflexivity).
  change (limit_clause 200) with " LIMIT 200".
  change ((" ORDER BY " +:+ Parser.first_dimension query +:+ " ASC") +:+ " LIMIT 200")
    with (" ORDER BY " +:+ (Parser.first_dimension query +:+ " ASC") +:+ " LIMIT 200").
  rewrite (append_assoc (Parser.first_dimension query) " ASC" " LIMIT 200").
  destruct (String.eqb (table meta) "dp_complaints"); reflexivity.
Qed.

Lemma parsed_plans_compile_to_one_shape_witness :
  exists tbl start,
    Samples.statement_of Samples.income_run =
       "SELECT "
         +:+ PyStr.join ", " (select_parts tbl
                                (Parser._detect_dimensions Samples.income_query)
                                (Parser._detect_metrics Samples.income_query))
         +:+ " FROM " +:+ tbl
         +:+ " WHERE "
         +:+ PyStr.join " AND "
               ((date_col tbl +:+ " >= '" +:+ start +:+ "'")
                :: (date_col tbl +:+ " <= '"
                      +:+ PyDate.isoformat (today Samples.env) +:+ "'")
                :: map filter_part (Parser._detect_filters Samples.income_query))
         +:+ " GROUP BY " +:+ group_by_text tbl (Parser._detect_dimensions Samples.income_query)
         +:+ (if String.eqb tbl "dp_complaints" then " HAVING COUNT(*) >= 10"
              else EmptyString)
         +:+ " ORDER BY " +:+ Parser.first_dimension Samples.income_query +:+ " ASC"
         +:+ " LIMIT 200".
Proof.
  destruct (parsed_plans_compile_to_one_shape Samples.accept_all (today Samples.env)
              Samples.income_query Samples.income_plan
              (Samples.statement_of Samples.income_run))
    as (tbl & start & _ & _ & _ & H).
  - vm_compute; reflexivity.
  - vm_compute; reflexivity.
  - exists tbl, start. exact H.
Defined.

(** ** Where the outliers lie *)








